(** * html-keynbutton-response: the trial state machine of [src/index.ts]

    A shallow embedding of the jsPsych plugin [HtmlKeyAndButtonPlugin]:
    the part of the page it builds, the closure variables of [trial],
    the callbacks it hands to the host ([after_response], [end_trial] and
    the three timers) and the two simulation entry points.

    Conventions.
    - HTML markup (the stimulus, the prompt, the result of [button_html])
      is kept in parsed form, as the node list that [innerHTML] and
      [insertAdjacentHTML] turn it into.
    - Clock readings of [performance.now()] and reaction times are
      rationals; [Math.round] is the floor of [x + 1/2].
    - The host (jsPsych) is a record of what the plugin asked of it:
      pending timeouts, keyboard listeners, click listeners and the
      results passed to [finishTrial]. The callbacks are modelled as the
      plugin wrote them ([deliver], [run]); what the host does on its own
      once [finishTrial] has been called, which is not in the plugin's
      source, is a separate step ([teardown], [host_deliver],
      [host_run]). *)

From Stdlib Require Import ZArith QArith Qround Lqa String List DecimalString.
From stdpp Require Import base list strings.
Import ListNotations.

Open Scope string_scope.
Open Scope list_scope.

(** ** The page *)

Module Dom.

(** A JavaScript number as it can arise from [Math.ceil(length / n)]
    with [n] an integer: an integer, [Infinity] (division of a positive
    length by zero) or [NaN] (0/0). *)
Inductive jsnum :=
| Num (z : Z)
| Infinity
| NaN.

Record attrs := {
  tag : string;
  id : string;
  classList : list string;
  disabled : bool;                         (* the [disabled] attribute *)
  visibility : string;                     (* [style.visibility] *)
  dataset_choice : option string;          (* [dataset.choice] *)
  gridTemplateColumns : option jsnum;      (* n of the assigned [repeat(n, 1fr)] *)
  gridTemplateRows : option jsnum
}.

#[warnings="-register-all"]
Inductive node :=
| Text (s : string)
| Elem (a : attrs) (children : list node).

(** Markup in parsed form. *)
Definition html := list node.

Definition createElement (t : string) : attrs :=
  {| tag := t; id := ""; classList := []; disabled := false;
     visibility := ""; dataset_choice := None;
     gridTemplateColumns := None; gridTemplateRows := None |}.

Definition set_id (i : string) (a : attrs) : attrs :=
  {| tag := tag a; id := i; classList := classList a; disabled := disabled a;
     visibility := visibility a; dataset_choice := dataset_choice a;
     gridTemplateColumns := gridTemplateColumns a;
     gridTemplateRows := gridTemplateRows a |}.

Definition set_classList (cl : list string) (a : attrs) : attrs :=
  {| tag := tag a; id := id a; classList := cl; disabled := disabled a;
     visibility := visibility a; dataset_choice := dataset_choice a;
     gridTemplateColumns := gridTemplateColumns a;
     gridTemplateRows := gridTemplateRows a |}.

Definition set_disabled (b : bool) (a : attrs) : attrs :=
  {| tag := tag a; id := id a; classList := classList a; disabled := b;
     visibility := visibility a; dataset_choice := dataset_choice a;
     gridTemplateColumns := gridTemplateColumns a;
     gridTemplateRows := gridTemplateRows a |}.

Definition set_visibility (v : string) (a : attrs) : attrs :=
  {| tag := tag a; id := id a; classList := classList a; disabled := disabled a;
     visibility := v; dataset_choice := dataset_choice a;
     gridTemplateColumns := gridTemplateColumns a;
     gridTemplateRows := gridTemplateRows a |}.

Definition set_dataset_choice (c : string) (a : attrs) : attrs :=
  {| tag := tag a; id := id a; classList := classList a; disabled := disabled a;
     visibility := visibility a; dataset_choice := Some c;
     gridTemplateColumns := gridTemplateColumns a;
     gridTemplateRows := gridTemplateRows a |}.

Definition set_grid (cols rows : jsnum) (a : attrs) : attrs :=
  {| tag := tag a; id := id a; classList := classList a; disabled := disabled a;
     visibility := visibility a; dataset_choice := dataset_choice a;
     gridTemplateColumns := Some cols; gridTemplateRows := Some rows |}.

Definition has_class (c : string) (a : attrs) : bool :=
  existsb (String.eqb c) (classList a).

(** [classList.add(c)]: a token list holds a class once. *)
Definition classList_add (c : string) (a : attrs) : attrs :=
  if has_class c a then a else set_classList (classList a ++ [c]) a.

(** [el.setAttribute("disabled", "disabled")] on every element child
    ([el.children] skips text nodes). *)
Definition disable_child (n : node) : node :=
  match n with
  | Text s => Text s
  | Elem a cs => Elem (set_disabled true a) cs
  end.

(** The selector [".jspsych-html-button-response-button button"]: the
    [button] elements below an element of that class. [inside] says that
    an ancestor of [n] carries the class. The attribute of every match is
    set to [b] ([setAttribute] for [true], [removeAttribute] for [false]). *)
Definition button_wrapper_class : string := "jspsych-html-button-response-button".

Fixpoint mark_wrapped_buttons (b : bool) (inside : bool) (n : node) : node :=
  match n with
  | Text s => Text s
  | Elem a cs =>
      let a' := if inside && String.eqb (tag a) "button" then set_disabled b a else a in
      Elem a' (List.map (mark_wrapped_buttons b (inside || has_class button_wrapper_class a)) cs)
  end.

(** [root.querySelector("#i").style.visibility = "hidden"]: the first
    element with that id, in document order, is hidden; [None] when there
    is none (the assignment then raises a TypeError). *)
Fixpoint hide_first (i : string) (n : node) : option node :=
  match n with
  | Text _ => None
  | Elem a cs =>
      if String.eqb (id a) i then Some (Elem (set_visibility "hidden" a) cs)
      else
        match
          (fix go (l : list node) : option (list node) :=
             match l with
             | [] => None
             | c :: l' =>
                 match hide_first i c with
                 | Some c' => Some (c' :: l')
                 | None =>
                     match go l' with
                     | Some l'' => Some (c :: l'')
                     | None => None
                     end
                 end
             end) cs
        with
        | Some cs' => Some (Elem a cs')
        | None => None
        end
  end.

Fixpoint hide_first_in (i : string) (l : list node) : option (list node) :=
  match l with
  | [] => None
  | c :: l' =>
      match hide_first i c with
      | Some c' => Some (c' :: l')
      | None =>
          match hide_first_in i l' with
          | Some l'' => Some (c :: l'')
          | None => None
          end
      end
  end.

(** The display element the host passes to [trial], with the class lists
    of its proper ancestors up to the document root. Elements of the
    document outside the display element are not represented. *)
Record page := {
  ancestors : list (list string);
  display_classList : list string;
  display_children : list node
}.

Definition set_children (cs : list node) (pg : page) : page :=
  {| ancestors := ancestors pg; display_classList := display_classList pg;
     display_children := cs |}.

Definition appendChild (n : node) (pg : page) : page :=
  set_children (display_children pg ++ [n]) pg.

(** [insertAdjacentHTML("beforeend", h)] on the display element. *)
Definition insertAdjacentHTML (h : html) (pg : page) : page :=
  set_children (display_children pg ++ h) pg.

(** Whether the display element or one of its ancestors carries the
    wrapper class. *)
Definition display_wrapped (pg : page) : bool :=
  existsb (String.eqb button_wrapper_class) (display_classList pg)
  || existsb (existsb (String.eqb button_wrapper_class)) (ancestors pg).

(** [document.querySelectorAll(".jspsych-html-button-response-button button")]
    followed by the loop over the matches. *)
Definition mark_document_buttons (b : bool) (pg : page) : page :=
  set_children (List.map (mark_wrapped_buttons b (display_wrapped pg)) (display_children pg)) pg.

(** Some element of [n], itself included, has the wrapper class. *)
Fixpoint carries_wrapper (n : node) : bool :=
  match n with
  | Text _ => false
  | Elem a cs => has_class button_wrapper_class a || existsb carries_wrapper cs
  end.

Definition is_disabled (n : node) : bool :=
  match n with
  | Text _ => false
  | Elem a _ => disabled a
  end.

Definition is_element (n : node) : bool :=
  match n with
  | Text _ => false
  | Elem _ _ => true
  end.

Definition node_children (n : node) : list node :=
  match n with
  | Text _ => []
  | Elem _ cs => cs
  end.

End Dom.

Import Dom.

(** ** Trial parameters and results *)

(** [trial.choices]: [null], a string (["ALL_KEYS"], ["NO_KEYS"]) or an
    array of key names. *)
Inductive choices_t :=
| ChoicesNull
| ChoicesStr (s : string)
| ChoicesArr (l : list string).

Record trial_params := {
  stimulus : html;
  choices : choices_t;
  show_button : bool;
  button_html : string -> nat -> html;
  button_layout : string;
  grid_rows : option Z;
  grid_columns : option Z;
  enable_button_after : Z;
  prompt : option html;
  stimulus_duration : option Z;
  trial_duration : option Z;
  response_ends_trial : bool
}.

(** The default of [button_html]: one [button] of class [jspsych-btn]
    whose content is the choice, taken as text (a choice that holds markup
    of its own would be parsed with the button). *)
Definition default_button_html (choice : string) (choice_index : nat) : html :=
  [Elem (set_classList ["jspsych-btn"] (createElement "button")) [Text choice]].

(** The closure variable [response]. *)
Record response_t := {
  rt : option Q;
  key : option string
}.

(** The argument of [after_response]: what the keyboard listener passes,
    or the literal [{key: choice, rt: null}] of a click listener. *)
Record response_info := {
  info_key : string;
  info_rt : option Q
}.

Definition response_of_info (info : response_info) : response_t :=
  {| rt := info_rt info; key := Some (info_key info) |}.

(** [trial_data], the argument of [finishTrial]. *)
Record trial_data := {
  data_rt : option Q;
  data_stimulus : html;
  data_response : option string
}.

(** ** The host, as the plugin uses it *)

Inductive timer_callback :=
| EnableButtons          (* removes [disabled] from the wrapped buttons *)
| HideStimulus           (* hides the stimulus element *)
| EndTrial.              (* [end_trial] *)

(** The options object of [getKeyboardResponse]; [callback_function] is
    always [after_response] and [rt_method] always ["performance"]. *)
Record listener := {
  valid_responses : choices_t;
  persist : bool;
  allow_held_key : bool
}.

Record host_state := {
  timeouts : list (timer_callback * Z);      (* [pluginAPI.setTimeout], pending *)
  keyboard_listener : option listener;       (* this trial's, while armed *)
  click_listeners : list (nat * string);     (* child of the button group, captured choice *)
  cancelled : nat;                           (* calls of [cancelKeyboardResponse] *)
  finished : list trial_data                 (* arguments of [finishTrial], oldest first *)
}.

Definition host_init : host_state :=
  {| timeouts := []; keyboard_listener := None; click_listeners := [];
     cancelled := 0; finished := [] |}.

Definition setTimeout (cb : timer_callback) (delay : Z) (h : host_state) : host_state :=
  {| timeouts := timeouts h ++ [(cb, delay)];
     keyboard_listener := keyboard_listener h;
     click_listeners := click_listeners h;
     cancelled := cancelled h; finished := finished h |}.

Definition getKeyboardResponse (l : listener) (h : host_state) : host_state :=
  {| timeouts := timeouts h;
     keyboard_listener := Some l;
     click_listeners := click_listeners h;
     cancelled := cancelled h; finished := finished h |}.

Definition cancelKeyboardResponse (l : listener) (h : host_state) : host_state :=
  {| timeouts := timeouts h;
     keyboard_listener := None;
     click_listeners := click_listeners h;
     cancelled := S (cancelled h); finished := finished h |}.

Definition addEventListener_click (l : list (nat * string)) (h : host_state) : host_state :=
  {| timeouts := timeouts h;
     keyboard_listener := keyboard_listener h;
     click_listeners := click_listeners h ++ l;
     cancelled := cancelled h; finished := finished h |}.

Definition finishTrial (d : trial_data) (h : host_state) : host_state :=
  {| timeouts := timeouts h;
     keyboard_listener := keyboard_listener h;
     click_listeners := click_listeners h;
     cancelled := cancelled h; finished := finished h ++ [d] |}.

(** A one-shot timer leaves the pending list when it fires. *)
Definition timer_eqb (cb cb' : timer_callback) : bool :=
  match cb, cb' with
  | EnableButtons, EnableButtons | HideStimulus, HideStimulus | EndTrial, EndTrial => true
  | _, _ => false
  end.

Fixpoint remove_timer (cb : timer_callback) (l : list (timer_callback * Z)) : list (timer_callback * Z) :=
  match l with
  | [] => []
  | (cb', d) :: l' =>
      if timer_eqb cb cb' then l' else (cb', d) :: remove_timer cb l'
  end.

Definition pending (cb : timer_callback) (l : list (timer_callback * Z)) : bool :=
  existsb (fun t => timer_eqb cb (fst t)) l.

Definition timer_fired (cb : timer_callback) (h : host_state) : host_state :=
  {| timeouts := remove_timer cb (timeouts h);
     keyboard_listener := keyboard_listener h;
     click_listeners := click_listeners h;
     cancelled := cancelled h; finished := finished h |}.

(** ** [trial]: rendering and arming *)

Inductive js_error :=
| Error (message : string)
| TypeError.

(** The closure variables of one call of [trial], the page and the host.
    [stimulusElement] and [buttonGroupElement] are elements of the page,
    named by their position among the children of the display element
    (the plugin never removes or reorders children). *)
Record trial_state := {
  document : page;
  stimulusElement : nat;
  buttonGroupElement : option nat;           (* [null] when no buttons are shown *)
  start_time : Q;
  response : response_t;
  keyboardListener : option listener;        (* [undefined] when not armed *)
  host : host_state
}.

(** [trial] returns, or throws with the page and the host as they are at
    the [throw]. *)
Inductive outcome :=
| Returned (st : trial_state)
| Thrown (e : js_error) (pg : page) (h : host_state).

Definition stimulus_id : string := "jspsych-html-keynbutton-response-stimulus".
Definition btngroup_id : string := "jspsych-html-button-response-btngroup".
Definition grid_error : js_error :=
  Error "You cannot set `grid_rows` to `null` without providing a value for `grid_columns`.".

(** [trial.show_button && trial.choices !== null &&
     trial.choices !== "ALL_KEYS" && trial.choices !== "NO_KEYS"] *)
Definition buttons_active (p : trial_params) : bool :=
  show_button p &&
  match choices p with
  | ChoicesNull => false
  | ChoicesStr s => negb (String.eqb s "ALL_KEYS") && negb (String.eqb s "NO_KEYS")
  | ChoicesArr _ => true
  end.

(** [trial.choices != "NO_KEYS"], the loose comparison: [null] differs
    from every string, and an array is compared through its [toString()],
    the elements joined by commas. *)
Definition choices_neq_NO_KEYS (c : choices_t) : bool :=
  match c with
  | ChoicesNull => true
  | ChoicesStr s => negb (String.eqb s "NO_KEYS")
  | ChoicesArr l => negb (String.eqb (String.concat "," l) "NO_KEYS")
  end.

Definition choices_length (c : choices_t) : nat :=
  match c with
  | ChoicesNull => 0
  | ChoicesStr s => String.length s
  | ChoicesArr l => length l
  end.

(** [Math.ceil(n / d)]; a [null] divisor counts as 0. *)
Definition ceil_div (n : nat) (d : option Z) : jsnum :=
  match d with
  | None | Some 0%Z => match n with O => NaN | S _ => Infinity end
  | Some d => Num (- ((- Z.of_nat n) / d))
  end.

Definition toString (n : nat) : string := NilZero.string_of_uint (Nat.to_uint n).

(** The loop over [trial.choices.entries()]: the markup of each button is
    appended to the group, the group's last child is tagged with the index
    and gets the click listener. [None]: the last child is missing or a
    text node, and [buttonElement.dataset.choice = ...] raises a TypeError. *)
Fixpoint add_buttons (bh : string -> nat -> html) (choiceIndex : nat) (l : list string)
    (children : list node) (listeners : list (nat * string))
    : option (list node * list (nat * string)) :=
  match l with
  | [] => Some (children, listeners)
  | choice :: rest =>
      let children' := children ++ bh choice choiceIndex in
      match last children' with
      | Some (Elem a cs) =>
          let ix := pred (length children') in
          add_buttons bh (S choiceIndex) rest
            (<[ix := Elem (set_dataset_choice (toString choiceIndex) a) cs]> children')
            (listeners ++ [(ix, choice)])
      | _ => None
      end
  end.

(** The group element as it is before the loop over the choices. *)
Definition group_attrs (p : trial_params) : option attrs :=
  let g := set_id btngroup_id (createElement "div") in
  if String.eqb (button_layout p) "grid" then
    let g := classList_add "jspsych-btn-group-grid" g in
    match grid_rows p, grid_columns p with
    | None, None => None
    | _, _ =>
        let n_cols :=
          match grid_columns p with
          | None => ceil_div (choices_length (choices p)) (grid_rows p)
          | Some c => Num c
          end in
        let n_rows :=
          match grid_rows p with
          | None => ceil_div (choices_length (choices p)) (grid_columns p)
          | Some r => Num r
          end in
        Some (set_grid n_cols n_rows g)
    end
  else if String.eqb (button_layout p) "flex" then
    Some (classList_add "jspsych-btn-group-flex" g)
  else Some g.

Definition initial_response : response_t := {| rt := None; key := None |}.

Definition plugin_listener (p : trial_params) : listener :=
  {| valid_responses := choices p; persist := false; allow_held_key := false |}.

(** The part of [trial] after the buttons: button delay, prompt, clock,
    keyboard listener, the two duration timers. *)
Definition arm (p : trial_params) (now : Q) (stim : nat) (grp : option nat)
    (pg : page) (h : host_state) : trial_state :=
  let '(pg, h) :=
    if (0 <? enable_button_after p)%Z
    then (mark_document_buttons true pg, setTimeout EnableButtons (enable_button_after p) h)
    else (pg, h) in
  let pg :=
    match prompt p with
    | Some m => insertAdjacentHTML m pg
    | None => pg
    end in
  let '(kl, h) :=
    if choices_neq_NO_KEYS (choices p)
    then (Some (plugin_listener p), getKeyboardResponse (plugin_listener p) h)
    else (None, h) in
  let h :=
    match stimulus_duration p with
    | Some d => setTimeout HideStimulus d h
    | None => h
    end in
  let h :=
    match trial_duration p with
    | Some d => setTimeout EndTrial d h
    | None => h
    end in
  {| document := pg; stimulusElement := stim; buttonGroupElement := grp;
     start_time := now; response := initial_response;
     keyboardListener := kl; host := h |}.

(** The element [trial] creates for the stimulus. *)
Definition stimulus_element (p : trial_params) : node :=
  Elem (set_id stimulus_id (createElement "div")) (stimulus p).

(** [trial(display_element, trial)]; [now] is what [performance.now()]
    returns during the call. The button group is attached to the display
    element after its loop, so a throw inside the branch leaves the page
    with the stimulus element only; listeners set on the detached buttons
    can never be reached and are not kept. *)
Definition trial (display_element : page) (now : Q) (p : trial_params) : outcome :=
  let stim := length (display_children display_element) in
  let pg := appendChild (stimulus_element p) display_element in
  if buttons_active p then
    match group_attrs p with
    | None => Thrown grid_error pg host_init
    | Some g =>
        match choices p with
        | ChoicesArr l =>
            match add_buttons (button_html p) 0 l [] [] with
            | Some (buttons, listeners) =>
                Returned (arm p now stim (Some (S stim))
                            (appendChild (Elem g buttons) pg)
                            (addEventListener_click listeners host_init))
            | None => Thrown TypeError pg host_init
            end
        | _ => Thrown TypeError pg host_init   (* a string has no [entries()] *)
        end
    end
  else Returned (arm p now stim None pg host_init).

(** ** The callbacks *)

Definition set_host (h : host_state) (st : trial_state) : trial_state :=
  {| document := document st; stimulusElement := stimulusElement st;
     buttonGroupElement := buttonGroupElement st; start_time := start_time st;
     response := response st; keyboardListener := keyboardListener st; host := h |}.

Definition set_document (pg : page) (st : trial_state) : trial_state :=
  {| document := pg; stimulusElement := stimulusElement st;
     buttonGroupElement := buttonGroupElement st; start_time := start_time st;
     response := response st; keyboardListener := keyboardListener st; host := host st |}.

Definition set_response (r : response_t) (st : trial_state) : trial_state :=
  {| document := document st; stimulusElement := stimulusElement st;
     buttonGroupElement := buttonGroupElement st; start_time := start_time st;
     response := r; keyboardListener := keyboardListener st; host := host st |}.

(** [Math.round], as a number. It is applied to the exact difference of
    the two clock readings; the rounding error of the subtraction of two
    doubles is not modelled. *)
Definition Math_round (x : Q) : Q := inject_Z (Qfloor (x + (1 # 2))).

(** What [end_trial] passes to [finishTrial] in state [st]. *)
Definition trial_data_of (p : trial_params) (st : trial_state) : trial_data :=
  {| data_rt := rt (response st);
     data_stimulus := stimulus p;
     data_response := key (response st) |}.

Definition end_trial (p : trial_params) (st : trial_state) : trial_state :=
  let h :=
    match keyboardListener st with
    | Some l => cancelKeyboardResponse l (host st)
    | None => host st
    end in
  set_host (finishTrial (trial_data_of p st) h) st.

Definition on_element (f : attrs -> attrs) (n : node) : node :=
  match n with
  | Text s => Text s
  | Elem a cs => Elem (f a) cs
  end.

Definition on_children (f : list node -> list node) (n : node) : node :=
  match n with
  | Text s => Text s
  | Elem a cs => Elem a (f cs)
  end.

(** [after_response(info)]; [now] is the clock read as [end_time]. *)
Definition after_response (p : trial_params) (st : trial_state)
    (info : response_info) (now : Q) : trial_state :=
  let pg := document st in
  let cs := alter (on_element (classList_add "responded")) (stimulusElement st)
              (display_children pg) in
  let r := match key (response st) with
           | None => response_of_info info
           | Some _ => response st
           end in
  let r := {| rt := Some (Math_round (now - start_time st)); key := key r |} in
  let cs :=
    match buttonGroupElement st with
    | Some g =>
        if show_button p
        then alter (on_children (List.map disable_child)) g cs
        else cs
    | None => cs
    end in
  let st := set_response r (set_document (set_children cs pg) st) in
  if response_ends_trial p then end_trial p st else st.

(** The timer that re-enables the buttons. *)
Definition enable_buttons (st : trial_state) : trial_state :=
  set_document (mark_document_buttons false (document st)) st.

(** The timer that hides the stimulus; without an element of that id the
    callback raises and changes nothing. *)
Definition hide_stimulus (st : trial_state) : trial_state :=
  match hide_first_in stimulus_id (display_children (document st)) with
  | Some cs => set_document (set_children cs (document st)) st
  | None => st
  end.

(** One callback invocation by the host or the browser. *)
Inductive event :=
| KeyboardCallback (info : response_info) (now : Q)   (* the keyboard listener *)
| ClickCallback (choice : string) (now : Q)           (* the click listener of [choice] *)
| TimeoutFires (cb : timer_callback).

Definition deliver (p : trial_params) (st : trial_state) (e : event) : trial_state :=
  match e with
  | KeyboardCallback info now => after_response p st info now
  | ClickCallback choice now =>
      after_response p st {| info_key := choice; info_rt := None |} now
  | TimeoutFires cb =>
      let st := set_host (timer_fired cb (host st)) st in
      match cb with
      | EnableButtons => enable_buttons st
      | HideStimulus => hide_stimulus st
      | EndTrial => end_trial p st
      end
  end.

Definition run (p : trial_params) (st : trial_state) (evs : list event) : trial_state :=
  fold_left (deliver p) evs st.

(** The callback of [e] is one the plugin has registered and that is
    still registered in [st]: an armed keyboard listener, a click listener
    for that choice, a pending timeout. Which keys the host lets through
    to an armed listener, and that a browser sends no click to a disabled
    button, is left open: every run the host can produce is a registered
    one. *)
Definition registered (st : trial_state) (e : event) : bool :=
  match e with
  | KeyboardCallback _ _ =>
      match keyboard_listener (host st) with Some _ => true | None => false end
  | ClickCallback choice _ =>
      existsb (fun l => String.eqb (snd l) choice) (click_listeners (host st))
  | TimeoutFires cb => pending cb (timeouts (host st))
  end.

(** Every event of the trace is registered when it is delivered. *)
Fixpoint registered_trace (p : trial_params) (st : trial_state) (evs : list event) : bool :=
  match evs with
  | [] => true
  | e :: evs' => registered st e && registered_trace p (deliver p st e) evs'
  end.

(** The events that carry a response, with the key they carry. *)
Definition response_key (e : event) : option string :=
  match e with
  | KeyboardCallback info _ => Some (info_key info)
  | ClickCallback choice _ => Some choice
  | TimeoutFires _ => None
  end.

(** The events whose callback reaches [end_trial]. *)
Definition reaches_end_trial (p : trial_params) (e : event) : bool :=
  match e with
  | KeyboardCallback _ _ | ClickCallback _ _ => response_ends_trial p
  | TimeoutFires EndTrial => true
  | TimeoutFires _ => false
  end.

(** ** Simulation *)

(** What [simulate] does that the host can see. *)
Inductive sim_call :=
| LoadCallback                                      (* [load_callback()] *)
| RunTrial (display_element : page) (o : outcome)   (* [this.trial(display_element, trial)] *)
| PressKey (k : option string) (delay : Q)          (* [pluginAPI.pressKey(key, delay)] *)
| FinishTrial (d : trial_data).                     (* [jsPsych.finishTrial(data)] *)

Record sim_result := {
  calls : list sim_call;
  raised : option js_error      (* the exception that leaves [simulate], if any *)
}.

Section Simulation.

(** The host's side of a simulation: the type of [simulation_options],
    the randomization and plugin API helpers, the display element and the
    clock. *)
Variable simulation_options : Type.
Variable sampleExGaussian : Q -> Q -> Q -> bool -> Q.
Variable getValidKey : choices_t -> option string.
Variable mergeSimulationData : trial_data -> simulation_options -> trial_data.
Variable ensureSimulationDataConsistency : trial_params -> trial_data -> trial_data.
Variable getDisplayElement : page.
Variable performance_now : Q.

Definition create_simulation_data (p : trial_params) (o : simulation_options) : trial_data :=
  let default_data :=
    {| data_rt := Some (sampleExGaussian 500 50 (1 / 150) true);
       data_stimulus := stimulus p;
       data_response := getValidKey (choices p) |} in
  let data := mergeSimulationData default_data o in
  ensureSimulationDataConsistency p data.

Definition simulate_data_only (p : trial_params) (o : simulation_options) : sim_result :=
  let data := create_simulation_data p o in
  {| calls := [FinishTrial data]; raised := None |}.

Definition simulate_visual (p : trial_params) (o : simulation_options) : sim_result :=
  let data := create_simulation_data p o in
  let display_element := getDisplayElement in
  let t := trial display_element performance_now p in
  match t with
  | Thrown e _ _ => {| calls := [RunTrial display_element t]; raised := Some e |}
  | Returned _ =>
      {| calls := [RunTrial display_element t; LoadCallback] ++
                  match data_rt data with
                  | Some delay => [PressKey (data_response data) delay]
                  | None => []
                  end;
         raised := None |}
  end.

Definition simulate (p : trial_params) (simulation_mode : string)
    (o : simulation_options) : sim_result :=
  let r1 :=
    if String.eqb simulation_mode "data-only"
    then {| calls := LoadCallback :: calls (simulate_data_only p o); raised := None |}
    else {| calls := []; raised := None |} in
  if String.eqb simulation_mode "visual"
  then let r2 := simulate_visual p o in
       {| calls := calls r1 ++ calls r2; raised := raised r2 |}
  else r1.

End Simulation.

Definition is_PressKey (c : sim_call) : bool :=
  match c with
  | PressKey _ _ => true
  | _ => false
  end.

(** ** The elements the closure holds *)

Definition elem_at (l : list node) (j : nat) : bool :=
  match l !! j with
  | Some n => is_element n
  | None => false
  end.

(** The stimulus element and the button group, looked up in the page. *)
Definition stimulus_node (st : trial_state) : option node :=
  display_children (document st) !! stimulusElement st.

Definition group_node (st : trial_state) : option node :=
  match buttonGroupElement st with
  | Some g => display_children (document st) !! g
  | None => None
  end.

(** The rendered buttons: the element children of the button group. *)
Definition rendered_buttons (st : trial_state) : list node :=
  match group_node st with
  | Some n => List.filter is_element (node_children n)
  | None => []
  end.

(** The positions held by the closure name elements of the page, and a
    button group exists only when buttons are shown. *)
Definition attached (p : trial_params) (st : trial_state) : Prop :=
  elem_at (display_children (document st)) (stimulusElement st) = true /\
  match buttonGroupElement st with
  | Some g =>
      g <> stimulusElement st /\ show_button p = true /\
      elem_at (display_children (document st)) g = true
  | None => True
  end.

(** ** Runs and what the host holds *)

(** The timers of a trial, in the order in which they are set. *)
Definition armed_timeouts (p : trial_params) : list (timer_callback * Z) :=
  (if (0 <? enable_button_after p)%Z then [(EnableButtons, enable_button_after p)] else []) ++
  match stimulus_duration p with Some d => [(HideStimulus, d)] | None => [] end ++
  match trial_duration p with Some d => [(EndTrial, d)] | None => [] end.

(** The keyboard listener of a trial, if it arms one. *)
Definition armed_listener (p : trial_params) : option listener :=
  if choices_neq_NO_KEYS (choices p) then Some (plugin_listener p) else None.

(** Pending timers of one kind, counted. *)
Definition count_timer (cb : timer_callback) (l : list (timer_callback * Z)) : nat :=
  length (List.filter (fun t => timer_eqb cb (fst t)) l).

Definition is_EndTrial (e : event) : bool :=
  match e with
  | TimeoutFires EndTrial => true
  | _ => false
  end.

(** No event of the run reaches [end_trial]. *)
Definition quiet (p : trial_params) (evs : list event) : bool :=
  forallb (fun e => negb (reaches_end_trial p e)) evs.

(** No event of the run is a response callback. *)
Definition no_response (evs : list event) : bool :=
  forallb (fun e => match response_key e with None => true | Some _ => false end) evs.

(** Every event of the run is a timer that changes the page only. *)
Definition cosmetic (evs : list event) : bool :=
  forallb (fun e => match e with
                    | TimeoutFires EnableButtons | TimeoutFires HideStimulus => true
                    | _ => false
                    end) evs.

(** ** Concrete trials *)

Module Examples.

(** The display element of a jsPsych page: [div#jspsych-content] inside
    the content wrapper inside the body. *)
Definition host_page : page :=
  {| ancestors := [["jspsych-content-wrapper"]; ["jspsych-display-element"]; []];
     display_classList := ["jspsych-content"];
     display_children := [] |}.

(** A trial with the given choices, button switch, grid rows and columns,
    button delay, duration and ending policy, and otherwise the defaults
    of [info]. *)
Definition params (c : choices_t) (sb : bool) (rows cols : option Z) (after : Z)
    (td : option Z) (ends : bool) : trial_params :=
  {| stimulus := [Text "this is html"]; choices := c; show_button := sb;
     button_html := default_button_html; button_layout := "grid";
     grid_rows := rows; grid_columns := cols; enable_button_after := after;
     prompt := None; stimulus_duration := None; trial_duration := td;
     response_ends_trial := ends |}.

(** Any key ends the trial, or the 500 ms limit does. *)
Definition keys_or_timeout : trial_params :=
  params (ChoicesStr "ALL_KEYS") true (Some 1%Z) None 0 (Some 500%Z) true.

(** Two buttons, enabled after one second. *)
Definition delayed_buttons : trial_params :=
  params (ChoicesArr ["f"; "j"]) true (Some 1%Z) None 1000 None true.

(** Two buttons, a response does not end the trial. *)
Definition fixed_duration : trial_params :=
  params (ChoicesArr ["f"; "j"]) true (Some 1%Z) None 0 (Some 2000%Z) false.

(** Grid layout without rows and columns, buttons switched off. *)
Definition grid_unset_no_buttons : trial_params :=
  params (ChoicesArr ["f"; "j"]) false None None 0 None true.

(** Grid layout without rows and columns, buttons shown. *)
Definition grid_unset_buttons : trial_params :=
  params (ChoicesArr ["f"; "j"]) true None None 0 (Some 500%Z) true.

(** No keys are accepted; the trial lasts 500 ms. *)
Definition no_keys : trial_params :=
  params (ChoicesStr "NO_KEYS") true (Some 1%Z) None 0 (Some 500%Z) true.

(** Buttons in the markup of the older button plugins: each one inside a
    [div] of class [jspsych-html-button-response-button]. *)
Definition wrapped_button_html (choice : string) (choice_index : nat) : html :=
  [Elem (set_classList [button_wrapper_class] (createElement "div"))
     [Elem (set_classList ["jspsych-btn"] (createElement "button")) [Text choice]]].

Definition delayed_wrapped_buttons : trial_params :=
  {| stimulus := [Text "this is html"]; choices := ChoicesArr ["f"; "j"];
     show_button := true; button_html := wrapped_button_html; button_layout := "flex";
     grid_rows := Some 1%Z; grid_columns := None; enable_button_after := 1000;
     prompt := None; stimulus_duration := None; trial_duration := None;
     response_ends_trial := true |}.

(** The [button] elements below the children of the button group. *)
Definition inner_buttons (st : trial_state) : list node :=
  match group_node st with
  | Some n =>
      List.filter (fun b => match b with
                            | Elem a _ => String.eqb (tag a) "button"
                            | Text _ => false
                            end)
        (List.concat (List.map node_children (node_children n)))
  | None => []
  end.

(** The state [trial] returns, or the bare armed state when it throws. *)
Definition started (p : trial_params) : trial_state :=
  match trial host_page 0 p with
  | Returned st => st
  | Thrown _ pg h => arm p 0 0 None pg h
  end.

Definition key_a : response_info := {| info_key := "a"; info_rt := Some (100 # 1) |}.
Definition key_j : response_info := {| info_key := "j"; info_rt := Some (700 # 1) |}.

End Examples.

(** ** The parameters' defaults, and further notions on runs and pages *)

(** The [default] entries of [info.parameters], for a given stimulus (the
    one parameter without a default). *)
Definition default_parameters (stim : html) : trial_params :=
  {| stimulus := stim;
     choices := ChoicesStr "ALL_KEYS";
     show_button := true;
     button_html := default_button_html;
     button_layout := "grid";
     grid_rows := Some 1%Z;
     grid_columns := None;
     enable_button_after := 0;
     prompt := None;
     stimulus_duration := None;
     trial_duration := None;
     response_ends_trial := true |}.

(** The grid layout is asked for with neither rows nor columns. *)
Definition grid_unset (p : trial_params) : bool :=
  String.eqb (button_layout p) "grid" &&
  match grid_rows p, grid_columns p with
  | None, None => true
  | _, _ => false
  end.

(** The choices that get a button: those of the array, when buttons are
    rendered. *)
Definition button_choices (p : trial_params) : list string :=
  if buttons_active p then
    match choices p with
    | ChoicesArr l => l
    | _ => []
    end
  else [].

(** The markup of the prompt, empty for [null]. *)
Definition prompt_markup (p : trial_params) : html :=
  match prompt p with
  | Some m => m
  | None => []
  end.

(** The markup ends in an element: after it is appended, [lastChild] is
    an element. *)
Definition ends_in_element (h : html) : bool :=
  match last h with
  | Some (Elem _ _) => true
  | _ => false
  end.

(** Some element of [n], itself included, has the id [i]. *)
Fixpoint carries_id (i : string) (n : node) : bool :=
  match n with
  | Text _ => false
  | Elem a cs => String.eqb (id a) i || existsb (carries_id i) cs
  end.

Definition fires (cb : timer_callback) (e : event) : bool :=
  match e with
  | TimeoutFires cb' => timer_eqb cb cb'
  | _ => false
  end.

(** The clock reading a response callback makes. *)
Definition event_clock (e : event) : option Q :=
  match e with
  | KeyboardCallback _ now | ClickCallback _ now => Some now
  | TimeoutFires _ => None
  end.

(** The keyboard listener the host holds, if any, is the one the closure
    knows. *)
Definition listener_known (st : trial_state) : Prop :=
  keyboard_listener (host st) = None \/
  keyboardListener st = keyboard_listener (host st).

(** Whether [trial] sets the timer of callback [cb]. *)
Definition timer_set (p : trial_params) (cb : timer_callback) : bool :=
  match cb with
  | EnableButtons => (0 <? enable_button_after p)%Z
  | HideStimulus => match stimulus_duration p with Some _ => true | None => false end
  | EndTrial => match trial_duration p with Some _ => true | None => false end
  end.

(** The stimulus element is the first element of the display with the
    stimulus id, and the button group, if any, comes after it. *)
Definition stimulus_first (st : trial_state) : Prop :=
  (exists pre a cs rest,
     display_children (document st) = pre ++ Elem a cs :: rest /\
     length pre = stimulusElement st /\
     id a = stimulus_id /\
     existsb (carries_id stimulus_id) pre = false) /\
  match buttonGroupElement st with
  | Some g => stimulusElement st < g
  | None => True
  end.

(** The string holds a comma. *)
Fixpoint has_comma (s : string) : bool :=
  match s with
  | EmptyString => false
  | String c s' => Ascii.eqb c (Ascii.ascii_of_nat 44) || has_comma s'
  end.

(** The node with [style.visibility] set to ["hidden"]. *)
Definition hidden (n : node) : node := on_element (set_visibility "hidden") n.

(** ** The host at a completion *)






(** ** Properties of the callbacks *)

Section Callbacks.

Variable p : trial_params.

Lemma run_app st evs1 evs2 :
  run p st (evs1 ++ evs2) = run p (run p st evs1) evs2.
Proof. unfold run. apply fold_left_app. Qed.

Lemma run_cons st e evs : run p st (e :: evs) = run p (deliver p st e) evs.
Proof. reflexivity. Qed.

Lemma end_trial_response st : response (end_trial p st) = response st.
Proof. reflexivity. Qed.

Lemma end_trial_finished st :
  finished (host (end_trial p st)) = finished (host st) ++ [trial_data_of p st].
Proof. unfold end_trial. destruct (keyboardListener st); reflexivity. Qed.

Lemma after_response_key st info now :
  key (response (after_response p st info now)) =
  match key (response st) with
  | Some k => Some k
  | None => Some (info_key info)
  end.
Proof.
  unfold after_response.
  destruct (response_ends_trial p); rewrite ?end_trial_response;
    destruct (key (response st)) eqn:E; cbn; rewrite ?E; reflexivity.
Qed.

Lemma after_response_rt st info now :
  rt (response (after_response p st info now)) =
  Some (Math_round (now - start_time st)).
Proof.
  unfold after_response.
  destruct (response_ends_trial p); rewrite ?end_trial_response; reflexivity.
Qed.

Lemma after_response_finished st info now :
  finished (host (after_response p st info now)) =
  finished (host st) ++
  (if response_ends_trial p then [trial_data_of p (after_response p st info now)] else []).
Proof.
  unfold after_response.
  destruct (response_ends_trial p).
  - rewrite end_trial_finished. reflexivity.
  - cbn. symmetry. apply app_nil_r.
Qed.

Lemma deliver_key st e :
  key (response (deliver p st e)) =
  match key (response st) with
  | Some k => Some k
  | None => response_key e
  end.
Proof.
  destruct e as [info now | choice now | cb]; cbn [deliver response_key].
  - apply after_response_key.
  - apply after_response_key.
  - destruct cb; cbn; unfold hide_stimulus; cbn;
      try destruct (hide_first_in _ _); cbn; destruct (key (response st)); reflexivity.
Qed.

Lemma deliver_start_time st e : start_time (deliver p st e) = start_time st.
Proof.
  destruct e as [info now | choice now | cb]; cbn [deliver].
  - unfold after_response. destruct (response_ends_trial p); reflexivity.
  - unfold after_response. destruct (response_ends_trial p); reflexivity.
  - destruct cb; cbn; unfold hide_stimulus; cbn;
      try destruct (hide_first_in _ _); reflexivity.
Qed.

Lemma deliver_finished st e :
  finished (host (deliver p st e)) =
  finished (host st) ++
  (if reaches_end_trial p e then [trial_data_of p (deliver p st e)] else []).
Proof.
  destruct e as [info now | choice now | cb]; cbn [deliver reaches_end_trial].
  - apply after_response_finished.
  - apply after_response_finished.
  - destruct cb; cbn [reaches_end_trial].
    + cbn. symmetry. apply app_nil_r.
    + unfold hide_stimulus; cbn. destruct (hide_first_in _ _); cbn; symmetry; apply app_nil_r.
    + rewrite end_trial_finished. reflexivity.
Qed.

Lemma run_key_set st evs k :
  key (response st) = Some k -> key (response (run p st evs)) = Some k.
Proof.
  revert st. induction evs as [|e evs IH]; intros st Hk; [exact Hk|].
  rewrite run_cons. apply IH. rewrite deliver_key, Hk. reflexivity.
Qed.

Lemma run_key_unset st evs :
  forallb (fun e => match response_key e with None => true | Some _ => false end) evs = true ->
  key (response (run p st evs)) = key (response st).
Proof.
  revert st. induction evs as [|e evs IH]; intros st Hq; [reflexivity|].
  cbn [forallb] in Hq. apply andb_prop in Hq as [He Hq].
  rewrite run_cons, IH by exact Hq. rewrite deliver_key.
  destruct (response_key e); [discriminate|]. destruct (key (response st)); reflexivity.
Qed.

Lemma run_finished_length st evs :
  length (finished (host (run p st evs))) =
  length (finished (host st)) + length (List.filter (reaches_end_trial p) evs).
Proof.
  revert st. induction evs as [|e evs IH]; intros st.
  - cbn. lia.
  - rewrite run_cons, IH, deliver_finished, length_app. cbn [List.filter].
    destruct (reaches_end_trial p e); cbn [length]; lia.
Qed.

End Callbacks.

(** ** Properties of the page operations *)

Lemma lookup_map {A B} (f : A -> B) (l : list A) (j : nat) :
  List.map f l !! j = option_map f (l !! j).
Proof.
  revert j. induction l as [|x l IH]; intros [|j]; cbn; try reflexivity. apply IH.
Qed.

Lemma elem_at_map (f : node -> node) (l : list node) (j : nat) :
  (forall n, is_element (f n) = is_element n) ->
  elem_at (List.map f l) j = elem_at l j.
Proof.
  intros Hf. unfold elem_at. rewrite lookup_map.
  destruct (l !! j); cbn; [apply Hf | reflexivity].
Qed.

Lemma elem_at_alter (f : node -> node) (l : list node) (i j : nat) :
  (forall n, is_element (f n) = is_element n) ->
  elem_at (alter f i l) j = elem_at l j.
Proof.
  intros Hf. unfold elem_at. rewrite list_lookup_alter.
  destruct (decide (i = j)) as [->|_]; [|reflexivity].
  destruct (l !! j); cbn; [apply Hf | reflexivity].
Qed.

Lemma elem_at_app_l (l h : list node) (j : nat) :
  elem_at l j = true -> elem_at (l ++ h) j = true.
Proof.
  unfold elem_at. destruct (l !! j) as [n|] eqn:E; [|discriminate].
  intros Hn. rewrite (lookup_app_l_Some _ _ _ _ E). exact Hn.
Qed.

Lemma elem_at_length_app (l : list node) (a : attrs) (cs h : list node) :
  elem_at ((l ++ [Elem a cs]) ++ h) (length l) = true.
Proof.
  apply elem_at_app_l. unfold elem_at.
  rewrite lookup_app_r by lia. rewrite Nat.sub_diag. reflexivity.
Qed.

Lemma mark_is_element b inside n :
  is_element (mark_wrapped_buttons b inside n) = is_element n.
Proof. destruct n; reflexivity. Qed.

Lemma on_element_is_element f n : is_element (on_element f n) = is_element n.
Proof. destruct n; reflexivity. Qed.

Lemma on_children_is_element f n : is_element (on_children f n) = is_element n.
Proof. destruct n; reflexivity. Qed.

Lemma hide_first_is_element i n n' :
  hide_first i n = Some n' -> is_element n' = is_element n.
Proof.
  destruct n as [s|a cs]; cbn; [discriminate|].
  destruct (String.eqb (id a) i); [intros [= <-]; reflexivity|].
  match goal with |- context [match ?x with Some _ => _ | None => _ end] => destruct x end;
    [intros [= <-]; reflexivity | discriminate].
Qed.

Lemma hide_first_in_elem_at i l l' j :
  hide_first_in i l = Some l' -> elem_at l' j = elem_at l j.
Proof.
  revert l' j. induction l as [|c l IH]; intros l' j; cbn; [discriminate|].
  destruct (hide_first i c) as [c'|] eqn:Hc.
  - intros [= <-]. destruct j; [|reflexivity].
    unfold elem_at; cbn. eapply hide_first_is_element, Hc.
  - destruct (hide_first_in i l) as [l''|]; [|discriminate].
    intros [= <-]. destruct j; [reflexivity|].
    unfold elem_at in *; cbn. apply (IH l'' j eq_refl).
Qed.

(** Where no element has the wrapper class the selector matches nothing,
    and the loop over the matches changes nothing. *)
Lemma mark_without_wrapper b n :
  carries_wrapper n = false -> mark_wrapped_buttons b false n = n.
Proof.
  revert n. fix IH 1. intros [s|a cs]; cbn [carries_wrapper mark_wrapped_buttons];
    [reflexivity|].
  intros H. apply orb_false_elim in H as [Ha Hcs]. rewrite Ha. cbn [andb orb]. f_equal.
  induction cs as [|c cs IHcs]; [reflexivity|].
  cbn [existsb] in Hcs. apply orb_false_elim in Hcs as [Hc Hcs].
  cbn [List.map]. rewrite (IH c Hc), (IHcs Hcs). reflexivity.
Qed.

Lemma mark_document_without_wrapper b pg :
  display_wrapped pg = false ->
  existsb carries_wrapper (display_children pg) = false ->
  mark_document_buttons b pg = pg.
Proof.
  intros Hw Hc. unfold mark_document_buttons. rewrite Hw.
  destruct pg as [anc cl cs]. unfold set_children. cbn in *. f_equal. clear Hw.
  induction cs as [|c cs IH]; [reflexivity|].
  cbn [existsb] in Hc. apply orb_false_elim in Hc as [Hc1 Hc2].
  cbn [List.map]. rewrite (mark_without_wrapper b c Hc1), (IH Hc2). reflexivity.
Qed.

(** The children of an element are searched like any node list. *)
Lemma hide_first_Elem i a cs :
  hide_first i (Elem a cs) =
  if String.eqb (id a) i then Some (Elem (set_visibility "hidden" a) cs)
  else option_map (Elem a) (hide_first_in i cs).
Proof.
  cbn. destruct (String.eqb (id a) i); [reflexivity|].
  match goal with |- match ?x with Some _ => _ | None => _ end = _ =>
    assert (x = hide_first_in i cs) as -> end.
  { clear a. induction cs as [|c cs IH]; cbn; [reflexivity|].
    destruct (hide_first i c); [reflexivity|]. rewrite IH. reflexivity. }
  destruct (hide_first_in i cs); reflexivity.
Qed.

(** ** The closure's elements stay attached *)

Section Attached.

Variable p : trial_params.

Lemma arm_positions now stim grp pg h :
  stimulusElement (arm p now stim grp pg h) = stim /\
  buttonGroupElement (arm p now stim grp pg h) = grp /\
  start_time (arm p now stim grp pg h) = now /\
  response (arm p now stim grp pg h) = initial_response.
Proof.
  unfold arm.
  destruct (0 <? enable_button_after p)%Z, (choices_neq_NO_KEYS (choices p));
    repeat split; reflexivity.
Qed.

Lemma arm_elem_at now stim grp pg h j :
  elem_at (display_children pg) j = true ->
  elem_at (display_children (document (arm p now stim grp pg h))) j = true.
Proof.
  intros Hj. unfold arm.
  destruct (0 <? enable_button_after p)%Z, (choices_neq_NO_KEYS (choices p)),
    (prompt p); cbn;
    try apply elem_at_app_l;
    rewrite ?elem_at_map by (intros; apply mark_is_element); exact Hj.
Qed.

Lemma trial_positions pg now st :
  trial pg now p = Returned st ->
  stimulusElement st = length (display_children pg) /\
  buttonGroupElement st =
    (if buttons_active p then Some (S (length (display_children pg))) else None) /\
  start_time st = now /\
  response st = initial_response.
Proof.
  unfold trial. destruct (buttons_active p).
  - destruct (group_attrs p); [|discriminate].
    destruct (choices p); try discriminate.
    destruct (add_buttons _ _ _ _ _) as [[bs ls]|]; [|discriminate].
    intros [= <-]. apply arm_positions.
  - intros [= <-]. apply arm_positions.
Qed.

Lemma trial_attached pg now st :
  trial pg now p = Returned st -> attached p st.
Proof.
  intros Ht. destruct (trial_positions _ _ _ Ht) as (Hs & Hg & _ & _).
  unfold attached. rewrite Hs, Hg. clear Hs Hg.
  revert Ht. unfold trial.
  destruct (buttons_active p) eqn:Hb.
  - destruct (group_attrs p); [|discriminate].
    destruct (choices p); try discriminate.
    destruct (add_buttons _ _ _ _ _) as [[bs ls]|]; [|discriminate].
    intros [= <-]. split; [|split; [lia|split]].
    + apply arm_elem_at. cbn. apply elem_at_length_app.
    + unfold buttons_active in Hb. apply andb_prop in Hb as [Hb _]. exact Hb.
    + apply arm_elem_at. cbn. unfold elem_at.
      rewrite lookup_app_r by (rewrite length_app; cbn; lia).
      rewrite length_app. cbn.
      replace (S (length (display_children pg)) - (length (display_children pg) + 1)) with 0 by lia.
      reflexivity.
  - intros [= <-]. split; [|exact I].
    apply arm_elem_at. cbn.
    rewrite <- (app_nil_r (display_children pg ++ _)). apply elem_at_length_app.
Qed.

Lemma deliver_positions st e :
  stimulusElement (deliver p st e) = stimulusElement st /\
  buttonGroupElement (deliver p st e) = buttonGroupElement st.
Proof.
  destruct e as [info now | choice now | cb]; cbn [deliver].
  - unfold after_response. destruct (response_ends_trial p); split; reflexivity.
  - unfold after_response. destruct (response_ends_trial p); split; reflexivity.
  - destruct cb; cbn; unfold hide_stimulus; cbn;
      try destruct (hide_first_in _ _); split; reflexivity.
Qed.

Lemma after_response_children st info now :
  display_children (document (after_response p st info now)) =
  let cs := alter (on_element (classList_add "responded")) (stimulusElement st)
              (display_children (document st)) in
  match buttonGroupElement st with
  | Some g => if show_button p then alter (on_children (List.map disable_child)) g cs else cs
  | None => cs
  end.
Proof.
  unfold after_response. destruct (response_ends_trial p); reflexivity.
Qed.

Lemma deliver_elem_at st e j :
  elem_at (display_children (document (deliver p st e))) j =
  elem_at (display_children (document st)) j.
Proof.
  assert (Hresp : forall info now,
    elem_at (display_children (document (after_response p st info now))) j =
    elem_at (display_children (document st)) j).
  { intros info now. rewrite after_response_children. cbn zeta.
    destruct (buttonGroupElement st); [destruct (show_button p)|];
      rewrite ?elem_at_alter by (intros; apply on_children_is_element);
      apply elem_at_alter; intros; apply on_element_is_element. }
  destruct e as [info now | choice now | cb]; cbn [deliver]; [apply Hresp | apply Hresp |].
  destruct cb; cbn.
  - apply elem_at_map. intros; apply mark_is_element.
  - unfold hide_stimulus; cbn.
    destruct (hide_first_in _ _) eqn:Hh; cbn; [|reflexivity].
    eapply hide_first_in_elem_at, Hh.
  - unfold end_trial; cbn. reflexivity.
Qed.

Lemma deliver_attached st e : attached p st -> attached p (deliver p st e).
Proof.
  unfold attached. destruct (deliver_positions st e) as [-> ->].
  rewrite deliver_elem_at. intros [Hs Hg]. split; [exact Hs|].
  destruct (buttonGroupElement st); [|exact I].
  rewrite deliver_elem_at. exact Hg.
Qed.

Lemma run_attached st evs : attached p st -> attached p (run p st evs).
Proof.
  revert st. induction evs as [|e evs IH]; intros st H; [exact H|].
  rewrite run_cons. apply IH, deliver_attached, H.
Qed.

Lemma run_positions st evs :
  stimulusElement (run p st evs) = stimulusElement st /\
  buttonGroupElement (run p st evs) = buttonGroupElement st /\
  start_time (run p st evs) = start_time st.
Proof.
  revert st. induction evs as [|e evs IH]; intros st; [repeat split|].
  rewrite run_cons. destruct (IH (deliver p st e)) as (-> & -> & ->).
  destruct (deliver_positions st e) as [-> ->]. rewrite deliver_start_time.
  repeat split.
Qed.

End Attached.

(** ** What [trial] asks of the host *)

Section Armed.

Variable p : trial_params.

Lemma arm_host now stim grp pg h :
  timeouts (host (arm p now stim grp pg h)) = timeouts h ++ armed_timeouts p /\
  keyboardListener (arm p now stim grp pg h) = armed_listener p /\
  keyboard_listener (host (arm p now stim grp pg h)) =
    match armed_listener p with Some l => Some l | None => keyboard_listener h end /\
  click_listeners (host (arm p now stim grp pg h)) = click_listeners h /\
  finished (host (arm p now stim grp pg h)) = finished h.
Proof.
  unfold arm, armed_timeouts, armed_listener.
  destruct (0 <? enable_button_after p)%Z, (choices_neq_NO_KEYS (choices p)),
    (stimulus_duration p), (trial_duration p); cbn;
    rewrite <- ?app_assoc, ?app_nil_r; repeat split; reflexivity.
Qed.

Lemma trial_host pg now st :
  trial pg now p = Returned st ->
  timeouts (host st) = armed_timeouts p /\
  keyboardListener st = armed_listener p /\
  keyboard_listener (host st) = armed_listener p /\
  (buttons_active p = false -> click_listeners (host st) = []) /\
  finished (host st) = [].
Proof.
  unfold trial. destruct (buttons_active p).
  - destruct (group_attrs p); [|discriminate].
    destruct (choices p); try discriminate.
    destruct (add_buttons _ _ _ _ _) as [[bs ls]|]; [|discriminate].
    intros [= <-].
    destruct (arm_host now (length (display_children pg))
                (Some (S (length (display_children pg))))
                (appendChild (Elem a bs)
                   (appendChild (stimulus_element p) pg))
                (addEventListener_click ls host_init)) as (-> & -> & -> & _ & ->).
    cbn. destruct (armed_listener p); repeat split; discriminate.
  - intros [= <-].
    destruct (arm_host now (length (display_children pg)) None
                (appendChild (stimulus_element p) pg)
                host_init) as (-> & -> & -> & -> & ->).
    cbn. destruct (armed_listener p); repeat split; reflexivity.
Qed.

(** Callbacks never set a timer, arm a keyboard listener or add a click
    listener. *)
Lemma deliver_click_listeners st e :
  click_listeners (host (deliver p st e)) = click_listeners (host st).
Proof.
  destruct e as [info now | choice now | cb]; cbn [deliver].
  - unfold after_response, end_trial.
    destruct (response_ends_trial p); cbn; [destruct (keyboardListener st)|]; reflexivity.
  - unfold after_response, end_trial.
    destruct (response_ends_trial p); cbn; [destruct (keyboardListener st)|]; reflexivity.
  - destruct cb; cbn; unfold hide_stimulus, end_trial; cbn;
      try destruct (hide_first_in _ _); try destruct (keyboardListener st); reflexivity.
Qed.

Lemma deliver_keyboard_listener st e :
  keyboard_listener (host st) = None ->
  keyboard_listener (host (deliver p st e)) = None.
Proof.
  intros Hk.
  destruct e as [info now | choice now | cb]; cbn [deliver].
  - unfold after_response, end_trial.
    destruct (response_ends_trial p); cbn; [destruct (keyboardListener st)|]; cbn; auto.
  - unfold after_response, end_trial.
    destruct (response_ends_trial p); cbn; [destruct (keyboardListener st)|]; cbn; auto.
  - destruct cb; cbn; unfold hide_stimulus, end_trial; cbn;
      try destruct (hide_first_in _ _); try destruct (keyboardListener st); cbn; auto.
Qed.

Lemma deliver_timer_response st cb :
  response (deliver p st (TimeoutFires cb)) = response st.
Proof.
  destruct cb; cbn; unfold hide_stimulus; cbn;
    try destruct (hide_first_in _ _); reflexivity.
Qed.

Lemma deliver_timeouts st e :
  timeouts (host (deliver p st e)) =
  match e with
  | TimeoutFires cb => remove_timer cb (timeouts (host st))
  | _ => timeouts (host st)
  end.
Proof.
  destruct e as [info now | choice now | cb]; cbn [deliver].
  - unfold after_response, end_trial.
    destruct (response_ends_trial p); cbn; [destruct (keyboardListener st)|]; reflexivity.
  - unfold after_response, end_trial.
    destruct (response_ends_trial p); cbn; [destruct (keyboardListener st)|]; reflexivity.
  - destruct cb; cbn; unfold hide_stimulus, end_trial; cbn;
      try destruct (hide_first_in _ _); try destruct (keyboardListener st); reflexivity.
Qed.

End Armed.

Lemma remove_timer_count cb cb' l :
  count_timer cb (remove_timer cb' l) =
  count_timer cb l - (if timer_eqb cb cb' then 1 else 0).
Proof.
  unfold count_timer. induction l as [|[c d] l IH]; [destruct (timer_eqb cb cb'); reflexivity|].
  cbn [remove_timer List.filter fst].
  destruct (timer_eqb cb' c) eqn:E1.
  - destruct cb, cb', c; try discriminate; cbn; lia.
  - cbn [List.filter fst]. destruct (timer_eqb cb c) eqn:E2; cbn [length]; rewrite IH.
    + destruct cb, cb', c; try discriminate; cbn; lia.
    + reflexivity.
Qed.

Lemma pending_count cb l : pending cb l = true -> 1 <= count_timer cb l.
Proof.
  unfold pending, count_timer. induction l as [|t l IH]; cbn; [discriminate|].
  destruct (timer_eqb cb (fst t)); cbn; [lia | exact IH].
Qed.

(** A registered trace fires the trial timer no more often than it is
    pending. *)
Lemma registered_EndTrial_bound p st evs :
  registered_trace p st evs = true ->
  length (List.filter is_EndTrial evs) <= count_timer EndTrial (timeouts (host st)).
Proof.
  revert st. induction evs as [|e evs IH]; intros st; cbn [registered_trace List.filter].
  - cbn. lia.
  - intros H. apply andb_prop in H as [Hr H]. specialize (IH _ H).
    rewrite deliver_timeouts in IH.
    destruct e as [info now | choice now | cb]; cbn [is_EndTrial]; [exact IH | exact IH |].
    rewrite remove_timer_count in IH. cbn [registered] in Hr.
    destruct cb; cbn [is_EndTrial timer_eqb] in *; cbn [length]; try lia.
    apply pending_count in Hr. lia.
Qed.

(** ** The response record *)

(** C3. Once [response.key] is set no callback changes it, and starting
    from the empty record it ends up as the key of the first response
    callback (key press or button click) of the run, whatever follows. *)
Theorem first_response_wins (p : trial_params) (st : trial_state) :
  (forall evs k,
     key (response st) = Some k ->
     key (response (run p st evs)) = Some k) /\
  (forall pre e post k,
     key (response st) = None ->
     no_response pre = true ->
     response_key e = Some k ->
     key (response (run p st (pre ++ e :: post))) = Some k).
Proof.
  split; [intros evs k; apply run_key_set|].
  intros pre e post k Hnone Hpre He.
  rewrite run_app, run_cons. apply run_key_set.
  rewrite deliver_key, (run_key_unset p st pre Hpre), Hnone. exact He.
Qed.

Lemma first_response_wins_witness :
  key (response (Examples.started Examples.fixed_duration)) = None /\
  no_response [TimeoutFires HideStimulus] = true /\
  response_key (ClickCallback "f" (300 # 1)) = Some "f" /\
  key (response (run Examples.fixed_duration (Examples.started Examples.fixed_duration)
                   ([TimeoutFires HideStimulus] ++
                    ClickCallback "f" (300 # 1) ::
                    [KeyboardCallback Examples.key_j (700 # 1); TimeoutFires EndTrial])))
    = Some "f".
Proof.
  split; [reflexivity|]. split; [reflexivity|]. split; [reflexivity|].
  apply (proj2 (first_response_wins Examples.fixed_duration
                  (Examples.started Examples.fixed_duration))); reflexivity.
Defined.

(** C9. When [after_response] runs with a key already recorded, the key
    stays and [rt] becomes [Math.round(now - start_time)] for the clock of
    this later call, [start_time] being the clock read by [trial]. *)
Theorem late_response_recomputes_rt (pg : page) (now0 : Q) (p : trial_params)
    (st0 : trial_state) (evs : list event) (info : response_info) (now : Q) (k : string) :
  trial pg now0 p = Returned st0 ->
  key (response (run p st0 evs)) = Some k ->
  key (response (after_response p (run p st0 evs) info now)) = Some k /\
  rt (response (after_response p (run p st0 evs) info now)) = Some (Math_round (now - now0)).
Proof.
  intros Ht Hk. rewrite after_response_key, after_response_rt, Hk.
  destruct (run_positions p st0 evs) as (_ & _ & ->).
  destruct (trial_positions p pg now0 st0 Ht) as (_ & _ & -> & _).
  split; reflexivity.
Qed.

Lemma late_response_recomputes_rt_witness :
  trial Examples.host_page 0 Examples.fixed_duration
    = Returned (Examples.started Examples.fixed_duration) /\
  key (response (run Examples.fixed_duration (Examples.started Examples.fixed_duration)
                   [ClickCallback "f" (300 # 1)])) = Some "f" /\
  rt (response (run Examples.fixed_duration (Examples.started Examples.fixed_duration)
                  [ClickCallback "f" (300 # 1)])) = Some (inject_Z 300) /\
  key (response (after_response Examples.fixed_duration
                   (run Examples.fixed_duration (Examples.started Examples.fixed_duration)
                      [ClickCallback "f" (300 # 1)])
                   Examples.key_j (1401 # 2))) = Some "f" /\
  rt (response (after_response Examples.fixed_duration
                  (run Examples.fixed_duration (Examples.started Examples.fixed_duration)
                     [ClickCallback "f" (300 # 1)])
                  Examples.key_j (1401 # 2))) = Some (Math_round ((1401 # 2) - 0)).
Proof.
  split; [reflexivity|]. split; [reflexivity|]. split; [reflexivity|].
  apply (late_response_recomputes_rt Examples.host_page 0 Examples.fixed_duration
           (Examples.started Examples.fixed_duration) [ClickCallback "f" (300 # 1)]
           Examples.key_j (1401 # 2) "f"); reflexivity.
Defined.

(** ** The trial-duration timer *)

(** C7. With [trial_duration] set to [d], [trial] sets a timer of [d]
    milliseconds on [end_trial]. When it fires, in whatever state,
    [finishTrial] receives the response record of that state and the
    stimulus parameter; if no response callback ran before, this is the
    trial's one result and its [rt] and [response] are null. *)
Theorem trial_duration_timer_ends_trial (pg : page) (now0 : Q) (p : trial_params)
    (st0 : trial_state) (d : Z) :
  trial_duration p = Some d ->
  trial pg now0 p = Returned st0 ->
  In (EndTrial, d) (timeouts (host st0)) /\
  registered st0 (TimeoutFires EndTrial) = true /\
  (forall st,
     finished (host (deliver p st (TimeoutFires EndTrial))) =
     finished (host st) ++
       [ {| data_rt := rt (response st); data_stimulus := stimulus p;
            data_response := key (response st) |} ]) /\
  (forall evs,
     cosmetic evs = true ->
     finished (host (run p st0 (evs ++ [TimeoutFires EndTrial]))) =
       [ {| data_rt := None; data_stimulus := stimulus p; data_response := None |} ]).
Proof.
  intros Hd Ht.
  destruct (trial_host p pg now0 st0 Ht) as (Hto & _ & _ & _ & Hfin).
  destruct (trial_positions p pg now0 st0 Ht) as (_ & _ & _ & Hresp).
  assert (Hin : In (EndTrial, d) (timeouts (host st0))).
  { rewrite Hto. unfold armed_timeouts. rewrite Hd.
    apply in_or_app. right. apply in_or_app. right. left. reflexivity. }
  split; [exact Hin|]. split.
  { cbn. unfold pending. apply existsb_exists. exists (EndTrial, d). split; [exact Hin | reflexivity]. }
  split.
  { intros st. cbn [deliver]. rewrite end_trial_finished. reflexivity. }
  intros evs Hevs.
  assert (Hstay : forall evs st, cosmetic evs = true ->
            response (run p st evs) = response st /\
            finished (host (run p st evs)) = finished (host st)).
  { clear. induction evs as [|e evs IH]; intros st H; [split; reflexivity|].
    cbn [cosmetic forallb] in H. apply andb_prop in H as [He H].
    rewrite run_cons. destruct (IH (deliver p st e) H) as [-> ->].
    destruct e as [| |[]]; try discriminate; cbn; unfold hide_stimulus;
      try destruct (hide_first_in _ _); split; reflexivity. }
  rewrite run_app.
  change (run p (run p st0 evs) [TimeoutFires EndTrial])
    with (deliver p (run p st0 evs) (TimeoutFires EndTrial)).
  rewrite deliver_finished. cbn [reaches_end_trial].
  unfold trial_data_of. rewrite deliver_timer_response.
  destruct (Hstay evs st0 Hevs) as [-> ->].
  rewrite Hfin, Hresp. reflexivity.
Qed.

Lemma trial_duration_timer_ends_trial_witness :
  trial_duration Examples.no_keys = Some 500%Z /\
  trial Examples.host_page 0 Examples.no_keys = Returned (Examples.started Examples.no_keys) /\
  In (EndTrial, 500%Z) (timeouts (host (Examples.started Examples.no_keys))) /\
  finished (host (run Examples.no_keys (Examples.started Examples.no_keys)
                    ([] ++ [TimeoutFires EndTrial]))) =
    [ {| data_rt := None; data_stimulus := stimulus Examples.no_keys;
         data_response := None |} ].
Proof.
  split; [reflexivity|]. split; [reflexivity|].
  destruct (trial_duration_timer_ends_trial Examples.host_page 0 Examples.no_keys
              (Examples.started Examples.no_keys) 500 eq_refl eq_refl)
    as (Hin & _ & _ & Hrun).
  split; [exact Hin|]. apply Hrun. reflexivity.
Defined.

(** ** Runs without a response, and runs that cannot end *)

Section Traces.

Variable p : trial_params.

Lemma response_event st e k :
  response_key e = Some k ->
  exists info now, info_key info = k /\ deliver p st e = after_response p st info now.
Proof.
  destruct e as [info now | choice now | cb]; cbn; intros [= <-].
  - exists info, now. split; reflexivity.
  - exists {| info_key := choice; info_rt := None |}, now. split; reflexivity.
Qed.

Lemma run_no_response st evs :
  no_response evs = true ->
  response (run p st evs) = response st /\
  finished (host (run p st evs)) =
    finished (host st) ++ repeat (trial_data_of p st) (length (List.filter is_EndTrial evs)).
Proof.
  revert st. induction evs as [|e evs IH]; intros st H.
  - split; [reflexivity|]. cbn. symmetry. apply app_nil_r.
  - cbn [no_response forallb] in H. apply andb_prop in H as [He H].
    destruct e as [info now | choice now | cb]; try discriminate.
    rewrite run_cons. destruct (IH (deliver p st (TimeoutFires cb)) H) as [-> ->].
    rewrite deliver_timer_response. split; [reflexivity|].
    rewrite deliver_finished. unfold trial_data_of. rewrite deliver_timer_response.
    destruct cb; cbn [reaches_end_trial is_EndTrial List.filter length repeat];
      rewrite <- app_assoc; reflexivity.
Qed.

(** Without an armed keyboard listener and without click listeners, only
    timers are delivered. *)
Lemma registered_without_listeners st evs :
  keyboard_listener (host st) = None ->
  click_listeners (host st) = [] ->
  registered_trace p st evs = true ->
  no_response evs = true.
Proof.
  revert st. induction evs as [|e evs IH]; intros st Hk Hc H; [reflexivity|].
  cbn [registered_trace] in H. apply andb_prop in H as [Hr H].
  cbn [no_response forallb]. apply andb_true_intro. split.
  - destruct e as [info now | choice now | cb]; cbn in Hr |- *.
    + rewrite Hk in Hr. discriminate.
    + rewrite Hc in Hr. discriminate.
    + reflexivity.
  - apply (IH (deliver p st e)); [apply deliver_keyboard_listener, Hk | | exact H].
    rewrite deliver_click_listeners. exact Hc.
Qed.

Lemma filter_reaches_no_end evs :
  response_ends_trial p = false ->
  List.filter (reaches_end_trial p) evs = List.filter is_EndTrial evs.
Proof.
  intros Hr. induction evs as [|e evs IH]; [reflexivity|]. cbn [List.filter].
  rewrite IH. destruct e as [| |[]]; cbn; rewrite ?Hr; reflexivity.
Qed.

Lemma timer_not_armed :
  trial_duration p = None -> count_timer EndTrial (armed_timeouts p) = 0.
Proof.
  intros Hd. unfold armed_timeouts. rewrite Hd.
  destruct (0 <? enable_button_after p)%Z, (stimulus_duration p); reflexivity.
Qed.

Lemma timer_armed_once : count_timer EndTrial (armed_timeouts p) <= 1.
Proof.
  unfold armed_timeouts.
  destruct (0 <? enable_button_after p)%Z, (stimulus_duration p), (trial_duration p);
    cbn; lia.
Qed.

Lemma classList_add_In c a : In c (classList (classList_add c a)).
Proof.
  unfold classList_add. destruct (has_class c a) eqn:H.
  - unfold has_class in H. apply existsb_exists in H as (x & Hin & Hx).
    apply String.eqb_eq in Hx. subst x. exact Hin.
  - cbn. apply in_or_app. right. left. reflexivity.
Qed.

Lemma disable_child_disabled cs :
  forallb is_disabled (List.filter is_element (List.map disable_child cs)) = true.
Proof.
  induction cs as [|[s|a sub] cs IH]; cbn; [reflexivity | exact IH | exact IH].
Qed.

Lemma after_response_nodes st info now a cs :
  attached p st ->
  stimulus_node st = Some (Elem a cs) ->
  stimulus_node (after_response p st info now) = Some (Elem (classList_add "responded" a) cs) /\
  (forall ga gcs,
     group_node st = Some (Elem ga gcs) ->
     group_node (after_response p st info now) =
       Some (Elem ga (List.map disable_child gcs))).
Proof.
  intros [_ Hg] Hs. unfold stimulus_node, group_node in *.
  assert (Hpos : stimulusElement (after_response p st info now) = stimulusElement st /\
                 buttonGroupElement (after_response p st info now) = buttonGroupElement st).
  { unfold after_response. destruct (response_ends_trial p); split; reflexivity. }
  destruct Hpos as [-> ->]. rewrite after_response_children. cbn zeta.
  destruct (buttonGroupElement st) as [g|].
  - destruct Hg as (Hne & -> & _). split.
    + rewrite list_lookup_alter_ne by exact Hne.
      rewrite list_lookup_alter_eq, Hs. reflexivity.
    + intros ga gcs Hgn.
      rewrite list_lookup_alter_eq, list_lookup_alter_ne by (intros E; apply Hne; symmetry; exact E).
      rewrite Hgn. reflexivity.
  - split; [|discriminate]. rewrite list_lookup_alter_eq, Hs. reflexivity.
Qed.

End Traces.

(** ** Trials without keys, trials that a response does not end *)

(** C4. With [choices] equal to ["NO_KEYS"], [trial] arms no keyboard
    listener; it renders no buttons either, so no click listener exists.
    In every run of registered callbacks only timers are delivered, the
    response record stays empty, and the results handed to the host are
    those of the trial-duration timer: at most one, with null [rt] and
    [response]. *)
Theorem no_keys_only_timer_ends_trial (pg : page) (now0 : Q) (p : trial_params)
    (st0 : trial_state) :
  choices p = ChoicesStr "NO_KEYS" ->
  trial pg now0 p = Returned st0 ->
  keyboardListener st0 = None /\
  keyboard_listener (host st0) = None /\
  buttonGroupElement st0 = None /\
  click_listeners (host st0) = [] /\
  (forall evs,
     registered_trace p st0 evs = true ->
     no_response evs = true /\
     response (run p st0 evs) = initial_response /\
     finished (host (run p st0 evs)) =
       repeat {| data_rt := None; data_stimulus := stimulus p; data_response := None |}
              (length (List.filter is_EndTrial evs)) /\
     length (finished (host (run p st0 evs))) <= 1).
Proof.
  intros Hc Ht.
  destruct (trial_host p pg now0 st0 Ht) as (Hto & Hkl & Hhk & Hcl & Hfin).
  destruct (trial_positions p pg now0 st0 Ht) as (_ & Hgrp & _ & Hresp).
  assert (Hact : buttons_active p = false).
  { unfold buttons_active. rewrite Hc. cbn. apply andb_false_r. }
  assert (Harm : armed_listener p = None).
  { unfold armed_listener. rewrite Hc. reflexivity. }
  rewrite Hact in Hgrp. rewrite Harm in Hkl, Hhk. specialize (Hcl Hact).
  repeat (split; [assumption|]).
  intros evs Hreg.
  pose proof (registered_without_listeners p st0 evs Hhk Hcl Hreg) as Hno.
  destruct (run_no_response p st0 evs Hno) as [Hr Hf].
  split; [exact Hno|]. split; [rewrite Hr; exact Hresp|].
  assert (Hrep : finished (host (run p st0 evs)) =
    repeat {| data_rt := None; data_stimulus := stimulus p; data_response := None |}
           (length (List.filter is_EndTrial evs))).
  { rewrite Hf, Hfin. unfold trial_data_of. rewrite Hresp. reflexivity. }
  split; [exact Hrep|].
  rewrite Hrep, repeat_length.
  pose proof (registered_EndTrial_bound p st0 evs Hreg) as Hb.
  rewrite Hto in Hb. pose proof (timer_armed_once p). lia.
Qed.

Lemma no_keys_only_timer_ends_trial_witness :
  choices Examples.no_keys = ChoicesStr "NO_KEYS" /\
  trial Examples.host_page 0 Examples.no_keys = Returned (Examples.started Examples.no_keys) /\
  keyboardListener (Examples.started Examples.no_keys) = None /\
  registered_trace Examples.no_keys (Examples.started Examples.no_keys)
    [TimeoutFires EndTrial] = true /\
  finished (host (run Examples.no_keys (Examples.started Examples.no_keys)
                    [TimeoutFires EndTrial])) =
    repeat {| data_rt := None; data_stimulus := stimulus Examples.no_keys;
              data_response := None |}
           (length (List.filter is_EndTrial [TimeoutFires EndTrial])).
Proof.
  split; [reflexivity|]. split; [reflexivity|].
  destruct (no_keys_only_timer_ends_trial Examples.host_page 0 Examples.no_keys
              (Examples.started Examples.no_keys) eq_refl eq_refl)
    as (Hkl & _ & _ & _ & Hrun).
  split; [exact Hkl|]. split; [reflexivity|].
  destruct (Hrun [TimeoutFires EndTrial] eq_refl) as (_ & _ & Hf & _). exact Hf.
Defined.

(** C5. With [response_ends_trial] false, a response callback (key press
    or click) in any state of the trial adds the class [responded] to the
    stimulus element and sets [disabled] on every element child of the
    button group, and asks nothing of the host: [finishTrial] is not
    called, the keyboard listener and the timers stay. Whatever callbacks
    run, the results handed to the host are as many as the firings of the
    trial-duration timer; with [trial_duration] null that timer is never
    set and no run of registered callbacks completes the trial. *)
Theorem response_without_end_keeps_trial_open (pg : page) (now0 : Q) (p : trial_params)
    (st0 : trial_state) (evs : list event) (e : event) (k : string) :
  trial pg now0 p = Returned st0 ->
  response_ends_trial p = false ->
  response_key e = Some k ->
  (exists a cs,
     stimulus_node (run p st0 evs) = Some (Elem a cs) /\
     stimulus_node (deliver p (run p st0 evs) e) =
       Some (Elem (classList_add "responded" a) cs) /\
     In "responded" (classList (classList_add "responded" a))) /\
  (buttons_active p = true ->
   exists ga gcs,
     group_node (run p st0 evs) = Some (Elem ga gcs) /\
     group_node (deliver p (run p st0 evs) e) = Some (Elem ga (List.map disable_child gcs)) /\
     forallb is_disabled (rendered_buttons (deliver p (run p st0 evs) e)) = true) /\
  host (deliver p (run p st0 evs) e) = host (run p st0 evs) /\
  (forall evs',
     length (finished (host (run p st0 evs'))) = length (List.filter is_EndTrial evs')) /\
  (trial_duration p = None ->
   forall evs', registered_trace p st0 evs' = true -> finished (host (run p st0 evs')) = []).
Proof.
  intros Ht Hends He.
  pose proof (run_attached p st0 evs (trial_attached p pg now0 st0 Ht)) as Hatt.
  destruct (response_event p (run p st0 evs) e k He) as (info & now & _ & Hdel).
  destruct (trial_host p pg now0 st0 Ht) as (Hto & _ & _ & _ & Hfin).
  assert (Hstim : exists a cs, stimulus_node (run p st0 evs) = Some (Elem a cs)).
  { destruct Hatt as [Hs _]. unfold elem_at in Hs. unfold stimulus_node.
    destruct (display_children (document (run p st0 evs)) !! stimulusElement (run p st0 evs))
      as [[s|a cs]|]; try discriminate. exists a, cs. reflexivity. }
  destruct Hstim as (a & cs & Hs).
  destruct (after_response_nodes p (run p st0 evs) info now a cs Hatt Hs) as [Hs' Hg'].
  assert (Hlen : forall evs',
            length (finished (host (run p st0 evs'))) = length (List.filter is_EndTrial evs')).
  { intros evs'. rewrite run_finished_length, Hfin, (filter_reaches_no_end p evs' Hends).
    reflexivity. }
  split; [|split; [|split; [|split]]].
  - exists a, cs. rewrite Hdel. repeat split; [exact Hs | exact Hs' | apply classList_add_In].
  - intros Hact.
    destruct (trial_positions p pg now0 st0 Ht) as (_ & Hgrp & _ & _). rewrite Hact in Hgrp.
    destruct (run_positions p st0 evs) as (_ & Hgrp' & _). rewrite Hgrp in Hgrp'.
    destruct Hatt as [_ Hg]. rewrite Hgrp' in Hg. destruct Hg as (_ & _ & Hg).
    unfold elem_at in Hg.
    assert (Hgn : exists ga gcs, group_node (run p st0 evs) = Some (Elem ga gcs)).
    { unfold group_node. rewrite Hgrp'.
      destruct (display_children (document (run p st0 evs)) !! S (length (display_children pg)))
        as [[s|ga gcs]|]; try discriminate. exists ga, gcs. reflexivity. }
    destruct Hgn as (ga & gcs & Hgn). exists ga, gcs. rewrite Hdel.
    pose proof (Hg' ga gcs Hgn) as Hafter.
    repeat split; [exact Hgn | exact Hafter |].
    unfold rendered_buttons. rewrite Hafter. cbn [node_children].
    apply disable_child_disabled.
  - rewrite Hdel. unfold after_response. rewrite Hends. reflexivity.
  - exact Hlen.
  - intros Hd evs' Hreg.
    pose proof (registered_EndTrial_bound p st0 evs' Hreg) as Hb.
    rewrite Hto, (timer_not_armed p Hd) in Hb.
    specialize (Hlen evs').
    destruct (finished (host (run p st0 evs'))); [reflexivity | cbn in Hlen; lia].
Qed.

Lemma response_without_end_keeps_trial_open_witness :
  trial Examples.host_page 0 Examples.fixed_duration
    = Returned (Examples.started Examples.fixed_duration) /\
  response_ends_trial Examples.fixed_duration = false /\
  response_key (KeyboardCallback Examples.key_j (700 # 1)) = Some "j" /\
  (exists ga gcs,
     group_node (run Examples.fixed_duration (Examples.started Examples.fixed_duration) [])
       = Some (Elem ga gcs) /\
     length gcs = 2 /\
     group_node (deliver Examples.fixed_duration
                   (run Examples.fixed_duration (Examples.started Examples.fixed_duration) [])
                   (KeyboardCallback Examples.key_j (700 # 1)))
       = Some (Elem ga (List.map disable_child gcs))) /\
  host (deliver Examples.fixed_duration
          (run Examples.fixed_duration (Examples.started Examples.fixed_duration) [])
          (KeyboardCallback Examples.key_j (700 # 1)))
    = host (run Examples.fixed_duration (Examples.started Examples.fixed_duration) []).
Proof.
  split; [reflexivity|]. split; [reflexivity|]. split; [reflexivity|].
  destruct (response_without_end_keeps_trial_open Examples.host_page 0 Examples.fixed_duration
              (Examples.started Examples.fixed_duration) []
              (KeyboardCallback Examples.key_j (700 # 1)) "j" eq_refl eq_refl eq_refl)
    as (_ & Hbtn & Hhost & _ & _).
  split; [|exact Hhost].
  destruct (Hbtn eq_refl) as (ga & gcs & Hgn & Hgn' & _).
  exists ga, gcs. split; [exact Hgn|]. split; [|exact Hgn'].
  vm_compute in Hgn. injection Hgn as _ <-. reflexivity.
Defined.

(** The comparison with ["NO_KEYS"] is the loose one: the one-element
    array [["NO_KEYS"]] arms no keyboard listener either, while the strict
    comparisons of the button branch let it render a button. *)
Example array_no_keys_is_loosely_NO_KEYS :
  let p := Examples.params (ChoicesArr ["NO_KEYS"]) true (Some 1%Z) None 0 None true in
  keyboardListener (Examples.started p) = None /\
  click_listeners (host (Examples.started p)) = [(0, "NO_KEYS")].
Proof. split; reflexivity. Qed.

(** ** The grid check *)

Lemma buttons_inactive (p : trial_params) :
  show_button p = false \/ choices p = ChoicesStr "ALL_KEYS" \/
  choices p = ChoicesStr "NO_KEYS" \/ choices p = ChoicesNull ->
  buttons_active p = false.
Proof.
  unfold buttons_active. intros [H | [H | [H | H]]]; rewrite H;
    [reflexivity | apply andb_false_r ..].
Qed.

(** C6, as the code has it. When buttons are to be rendered
    ([show_button] true and [choices] neither null nor ["ALL_KEYS"] nor
    ["NO_KEYS"]), a grid layout with neither rows nor columns makes
    [trial] throw the configuration error. At the throw the stimulus
    element is the only thing added to the display element, and the host
    has been asked for nothing: no button and no click listener, no
    keyboard listener, no timer, no result. *)
Theorem grid_unset_throws_before_buttons (pg : page) (now0 : Q) (p : trial_params) :
  buttons_active p = true ->
  button_layout p = "grid" ->
  grid_rows p = None ->
  grid_columns p = None ->
  exists pg' h,
    trial pg now0 p = Thrown grid_error pg' h /\
    display_children pg' = display_children pg ++ [stimulus_element p] /\
    timeouts h = [] /\ keyboard_listener h = None /\
    click_listeners h = [] /\ finished h = [].
Proof.
  intros Hact Hlay Hr Hc.
  exists (appendChild (stimulus_element p) pg), host_init.
  unfold trial, group_attrs. rewrite Hact, Hlay, Hr, Hc. cbn.
  repeat split.
Qed.

Lemma grid_unset_throws_before_buttons_witness :
  buttons_active Examples.grid_unset_buttons = true /\
  button_layout Examples.grid_unset_buttons = "grid" /\
  grid_rows Examples.grid_unset_buttons = None /\
  grid_columns Examples.grid_unset_buttons = None /\
  exists pg' h,
    trial Examples.host_page 0 Examples.grid_unset_buttons = Thrown grid_error pg' h /\
    display_children pg' =
      display_children Examples.host_page ++ [stimulus_element Examples.grid_unset_buttons] /\
    timeouts h = [] /\ keyboard_listener h = None /\
    click_listeners h = [] /\ finished h = [].
Proof.
  repeat (split; [reflexivity|]).
  apply (grid_unset_throws_before_buttons Examples.host_page 0 Examples.grid_unset_buttons);
    reflexivity.
Defined.

(** C6, the trial that refutes it as stated: grid layout, no rows, no
    columns, [show_button] false. [trial] returns, with the keyboard
    listener armed. *)
Lemma grid_unset_without_buttons_returns :
  button_layout Examples.grid_unset_no_buttons = "grid" /\
  grid_rows Examples.grid_unset_no_buttons = None /\
  grid_columns Examples.grid_unset_no_buttons = None /\
  exists st,
    trial Examples.host_page 0 Examples.grid_unset_no_buttons = Returned st /\
    keyboard_listener (host st) = Some (plugin_listener Examples.grid_unset_no_buttons).
Proof.
  repeat (split; [reflexivity|]).
  exists (Examples.started Examples.grid_unset_no_buttons). split; reflexivity.
Qed.

(** C10. The grid check sits inside the button branch: with
    [show_button] false, or [choices] equal to ["ALL_KEYS"], ["NO_KEYS"]
    or null, [trial] returns whatever the layout, rows and columns are,
    with no button group and the stimulus element appended. *)
Theorem no_buttons_no_grid_check (pg : page) (now0 : Q) (p : trial_params) :
  show_button p = false \/ choices p = ChoicesStr "ALL_KEYS" \/
  choices p = ChoicesStr "NO_KEYS" \/ choices p = ChoicesNull ->
  exists st,
    trial pg now0 p = Returned st /\
    buttonGroupElement st = None /\
    st = arm p now0 (length (display_children pg)) None
           (appendChild (stimulus_element p) pg) host_init.
Proof.
  intros H. apply buttons_inactive in H.
  exists (arm p now0 (length (display_children pg)) None
            (appendChild (stimulus_element p) pg) host_init).
  unfold trial. rewrite H. split; [reflexivity|]. split; [|reflexivity].
  apply arm_positions.
Qed.

Lemma no_buttons_no_grid_check_witness :
  show_button Examples.grid_unset_no_buttons = false /\
  button_layout Examples.grid_unset_no_buttons = "grid" /\
  grid_rows Examples.grid_unset_no_buttons = None /\
  grid_columns Examples.grid_unset_no_buttons = None /\
  exists st,
    trial Examples.host_page 0 Examples.grid_unset_no_buttons = Returned st /\
    buttonGroupElement st = None /\
    st = arm Examples.grid_unset_no_buttons 0 (length (display_children Examples.host_page)) None
           (appendChild (stimulus_element Examples.grid_unset_no_buttons) Examples.host_page)
           host_init.
Proof.
  repeat (split; [reflexivity|]).
  apply (no_buttons_no_grid_check Examples.host_page 0 Examples.grid_unset_no_buttons).
  left. reflexivity.
Defined.

(** ** The repository's tests, on the model *)

(** "displays html stimulus": with the default choices the display holds
    the stimulus element and nothing else. *)
Example test_displays_html_stimulus :
  let p := Examples.params (ChoicesStr "ALL_KEYS") true (Some 1%Z) None 0 None true in
  display_children (document (Examples.started p)) =
    [Elem (set_id stimulus_id (createElement "div")) [Text "this is html"]].
Proof. reflexivity. Qed.

(** "display button with allowd key": the first button is
    [<button class="jspsych-btn" data-choice="0">f</button>]. *)
Example test_display_button :
  let p := Examples.params (ChoicesArr ["f"; "j"]) true (Some 1%Z) None 0 None true in
  head (rendered_buttons (Examples.started p)) =
    Some (Elem (set_dataset_choice "0"
                  (set_classList ["jspsych-btn"] (createElement "button")))
            [Text "f"]).
Proof. reflexivity. Qed.

(** "should end trial when key press": one result, with the key. *)
Example test_key_press_ends_trial :
  let p := Examples.params (ChoicesArr ["f"; "j"]) true (Some 1%Z) None 0 None true in
  List.map data_response
    (finished (host (run p (Examples.started p)
                       [KeyboardCallback {| info_key := "f"; info_rt := Some (250 # 1) |}
                          (250 # 1)])))
    = [Some "f"].
Proof. reflexivity. Qed.

(** ** The button delay *)

(** C2, the code at a trial with two buttons and [enable_button_after]
    of 1000 ms, on a jsPsych page. The selector
    [".jspsych-html-button-response-button button"] matches no element of
    what [trial] renders: the buttons are children of the group
    [#jspsych-html-button-response-btngroup], and nothing on the page has
    the class. Both buttons are rendered enabled; the timer is set all the
    same, and finds nothing to enable. *)
Lemma delayed_buttons_start_enabled :
  (0 < enable_button_after Examples.delayed_buttons)%Z /\
  trial Examples.host_page 0 Examples.delayed_buttons
    = Returned (Examples.started Examples.delayed_buttons) /\
  List.map is_disabled (rendered_buttons (Examples.started Examples.delayed_buttons))
    = [false; false] /\
  timeouts (host (Examples.started Examples.delayed_buttons)) = [(EnableButtons, 1000%Z)] /\
  document (deliver Examples.delayed_buttons (Examples.started Examples.delayed_buttons)
              (TimeoutFires EnableButtons))
    = document (Examples.started Examples.delayed_buttons).
Proof. repeat split; vm_compute; reflexivity. Qed.

(** When the markup of the buttons does carry the class, the same code
    disables them and the timer enables them again. *)
Example delayed_wrapped_buttons_start_disabled :
  List.map is_disabled
    (Examples.inner_buttons (Examples.started Examples.delayed_wrapped_buttons))
    = [true; true] /\
  List.map is_disabled
    (Examples.inner_buttons
       (run Examples.delayed_wrapped_buttons (Examples.started Examples.delayed_wrapped_buttons)
          [TimeoutFires EnableButtons]))
    = [false; false].
Proof. split; vm_compute; reflexivity. Qed.

(** ** Visual simulation *)

Section VisualSimulation.

Variable simulation_options : Type.
Variable sampleExGaussian : Q -> Q -> Q -> bool -> Q.
Variable getValidKey : choices_t -> option string.
Variable mergeSimulationData : trial_data -> simulation_options -> trial_data.
Variable ensureSimulationDataConsistency : trial_params -> trial_data -> trial_data.
Variable getDisplayElement : page.
Variable performance_now : Q.

(** C8. In visual mode [simulate] builds the data (the defaults merged
    with the options and made consistent by the host), runs [trial] on
    the host's display element, and when [trial] has returned calls the
    load callback and then, if the [rt] of the data is not null,
    [pressKey] with the response and that [rt] as delay. With a null [rt]
    no key press is injected, whether [trial] returns or throws. *)
Theorem visual_simulation_injects_response (p : trial_params) (o : simulation_options) :
  let data :=
    create_simulation_data simulation_options sampleExGaussian getValidKey
      mergeSimulationData ensureSimulationDataConsistency p o in
  let r :=
    simulate simulation_options sampleExGaussian getValidKey mergeSimulationData
      ensureSimulationDataConsistency getDisplayElement performance_now p "visual" o in
  (forall st,
     trial getDisplayElement performance_now p = Returned st ->
     raised r = None /\
     calls r =
       [RunTrial getDisplayElement (Returned st); LoadCallback] ++
       match data_rt data with
       | Some delay => [PressKey (data_response data) delay]
       | None => []
       end) /\
  (data_rt data = None -> forallb (fun c => negb (is_PressKey c)) (calls r) = true).
Proof.
  intros data r. subst r. unfold simulate. cbn [String.eqb Ascii.eqb Bool.eqb calls raised app].
  unfold simulate_visual. fold data. split.
  - intros st Ht. rewrite Ht. split; reflexivity.
  - intros Hrt. rewrite Hrt.
    destruct (trial getDisplayElement performance_now p); reflexivity.
Qed.

End VisualSimulation.

Lemma visual_simulation_injects_response_witness :
  trial Examples.host_page 0 Examples.keys_or_timeout
    = Returned (Examples.started Examples.keys_or_timeout) /\
  calls (simulate unit (fun _ _ _ _ => 523 # 1) (fun _ => Some "a") (fun d _ => d)
           (fun _ d => d) Examples.host_page 0 Examples.keys_or_timeout "visual" tt) =
    [RunTrial Examples.host_page (Returned (Examples.started Examples.keys_or_timeout));
     LoadCallback; PressKey (Some "a") (523 # 1)].
Proof.
  split; [reflexivity|].
  apply (proj1 (visual_simulation_injects_response unit (fun _ _ _ _ => 523 # 1)
                  (fun _ => Some "a") (fun d _ => d) (fun _ d => d)
                  Examples.host_page 0 Examples.keys_or_timeout tt)
           (Examples.started Examples.keys_or_timeout) eq_refl).
Defined.

(** ** The button delay on a page without the wrapper class *)

Lemma existsb_insert_false {A} (f : A -> bool) (l : list A) (i : nat) (x : A) :
  existsb f l = false -> f x = false -> existsb f (<[i:=x]> l) = false.
Proof.
  revert i. induction l as [|y l IH]; intros i Hl Hx; [destruct i; exact Hl|].
  cbn [existsb] in Hl. apply orb_false_elim in Hl as [Hy Hl].
  destruct i as [|i]; simpl.
  - rewrite Hx. exact Hl.
  - rewrite Hy. apply (IH i Hl Hx).
Qed.

Lemma existsb_last_false {A} (f : A -> bool) (l : list A) (x : A) :
  existsb f l = false -> last l = Some x -> f x = false.
Proof.
  induction l as [|y l IH]; [discriminate|].
  cbn [existsb]. intros H. apply orb_false_elim in H as [Hy Hl].
  destruct l as [|z l]; [intros [= <-]; exact Hy|].
  intros Hlast. apply (IH Hl). exact Hlast.
Qed.

Lemma add_buttons_without_wrapper bh n l children ls bs ls' :
  (forall c i, existsb carries_wrapper (bh c i) = false) ->
  existsb carries_wrapper children = false ->
  add_buttons bh n l children ls = Some (bs, ls') ->
  existsb carries_wrapper bs = false.
Proof.
  intros Hbh. revert n children ls.
  induction l as [|choice l IH]; intros n children ls Hc; cbn [add_buttons].
  - intros [= <- _]. exact Hc.
  - assert (Happ : existsb carries_wrapper (children ++ bh choice n) = false).
    { rewrite existsb_app, Hc, Hbh. reflexivity. }
    destruct (last (children ++ bh choice n)) as [[s|a cs]|] eqn:Hlast; try discriminate.
    apply IH. apply existsb_insert_false; [exact Happ|].
    exact (existsb_last_false _ _ _ Happ Hlast).
Qed.

(** On a page where nothing has the wrapper class, with markup that does
    not bring it, the page [trial] leaves is the one it leaves without a
    button delay: the delay disables nothing. *)
Lemma button_delay_disables_nothing (pg : page) (now0 : Q) (p p0 : trial_params)
    (st st0 : trial_state) :
  display_wrapped pg = false ->
  existsb carries_wrapper (display_children pg) = false ->
  existsb carries_wrapper (stimulus p) = false ->
  (forall c i, existsb carries_wrapper (button_html p c i) = false) ->
  p0 = {| stimulus := stimulus p; choices := choices p; show_button := show_button p;
          button_html := button_html p; button_layout := button_layout p;
          grid_rows := grid_rows p; grid_columns := grid_columns p;
          enable_button_after := 0; prompt := prompt p;
          stimulus_duration := stimulus_duration p; trial_duration := trial_duration p;
          response_ends_trial := response_ends_trial p |} ->
  trial pg now0 p = Returned st ->
  trial pg now0 p0 = Returned st0 ->
  document st = document st0.
Proof.
  intros Hw Hpg Hstim Hbh -> Ht Ht0.
  assert (Harm : forall q stim grp pg' h,
            display_wrapped pg' = false ->
            existsb carries_wrapper (display_children pg') = false ->
            document (arm q now0 stim grp pg' h) =
            match prompt q with Some m => insertAdjacentHTML m pg' | None => pg' end).
  { intros q stim grp pg' h Hw' Hc'. unfold arm.
    destruct (0 <? enable_button_after q)%Z, (choices_neq_NO_KEYS (choices q));
      cbn [document]; rewrite ?(mark_document_without_wrapper true pg' Hw' Hc'); reflexivity. }
  revert Ht Ht0. unfold trial, buttons_active, group_attrs, stimulus_element.
  cbn [stimulus choices show_button button_html button_layout grid_rows grid_columns prompt].
  set (pg1 := appendChild _ pg).
  assert (Hw1 : display_wrapped pg1 = false) by exact Hw.
  assert (Hc1 : existsb carries_wrapper (display_children pg1) = false).
  { subst pg1. cbn. rewrite existsb_app, Hpg. cbn. rewrite Hstim. reflexivity. }
  destruct (show_button p && _).
  - destruct (if String.eqb (button_layout p) "grid" then _ else _) as [g|] eqn:Hg;
      [|discriminate].
    destruct (choices p) as [|s|l]; try discriminate.
    destruct (add_buttons (button_html p) 0 l [] []) as [[bs ls]|] eqn:Hadd; [|discriminate].
    intros [= <-] [= <-].
    assert (Hgc : has_class button_wrapper_class g = false).
    { revert Hg. destruct (String.eqb (button_layout p) "grid").
      - destruct (grid_rows p), (grid_columns p); intros [= <-]; reflexivity.
      - destruct (String.eqb (button_layout p) "flex"); intros [= <-]; reflexivity. }
    pose proof (add_buttons_without_wrapper (button_html p) 0 l [] [] bs ls
                  Hbh eq_refl Hadd) as Hbs.
    rewrite !Harm; try reflexivity; try exact Hw1.
    all: cbn; rewrite existsb_app; cbn in Hc1; rewrite Hc1; cbn; rewrite Hgc, Hbs; reflexivity.
  - intros [= <-] [= <-]. rewrite !Harm; try reflexivity; assumption.
Qed.

(** * Further properties of the plugin *)

(** ** The result of a trial that a response ends *)

Section Ending.

Variable p : trial_params.

Lemma cosmetic_stay st evs :
  cosmetic evs = true ->
  response (run p st evs) = response st /\
  finished (host (run p st evs)) = finished (host st) /\
  keyboard_listener (host (run p st evs)) = keyboard_listener (host st) /\
  keyboardListener (run p st evs) = keyboardListener st.
Proof.
  revert st. induction evs as [|e evs IH]; intros st H; [repeat split|].
  cbn [cosmetic forallb] in H. apply andb_prop in H as [He H].
  rewrite run_cons. destruct (IH (deliver p st e) H) as (-> & -> & -> & ->).
  destruct e as [| |[]]; try discriminate; cbn; unfold hide_stimulus;
    try destruct (hide_first_in _ _); repeat split; reflexivity.
Qed.

Lemma trial_listener_known pg now0 st :
  trial pg now0 p = Returned st -> listener_known st.
Proof.
  intros Ht. destruct (trial_host p pg now0 st Ht) as (_ & Hk & Hh & _).
  right. rewrite Hk, Hh. reflexivity.
Qed.

Lemma end_trial_listener st :
  listener_known st ->
  keyboard_listener (host (end_trial p st)) = None /\
  keyboardListener (end_trial p st) = keyboardListener st.
Proof.
  intros Hk. unfold end_trial. split; [|reflexivity].
  destruct (keyboardListener st) as [l|] eqn:E; cbn; [reflexivity|].
  destruct Hk as [Hk|Hk]; [exact Hk | rewrite <- Hk; exact E].
Qed.

Lemma after_response_listener st info now :
  listener_known st ->
  listener_known (after_response p st info now) /\
  (response_ends_trial p = true ->
   keyboard_listener (host (after_response p st info now)) = None).
Proof.
  intros Hk. unfold after_response.
  destruct (response_ends_trial p).
  - match goal with |- context [end_trial p ?s] =>
      destruct (end_trial_listener s Hk) as [Hn _] end.
    split; [left; exact Hn | intros _; exact Hn].
  - split; [exact Hk | discriminate].
Qed.

Lemma deliver_listener st e :
  listener_known st ->
  listener_known (deliver p st e) /\
  (reaches_end_trial p e = true -> keyboard_listener (host (deliver p st e)) = None).
Proof.
  intros Hk. destruct e as [info now | choice now | cb]; cbn [deliver reaches_end_trial].
  - apply after_response_listener, Hk.
  - apply after_response_listener, Hk.
  - assert (Hk' : listener_known (set_host (timer_fired cb (host st)) st)) by exact Hk.
    destruct cb.
    + split; [exact Hk | discriminate].
    + split; [|discriminate]. unfold hide_stimulus.
      destruct (hide_first_in _ _); exact Hk.
    + destruct (end_trial_listener _ Hk') as [Hn _].
      split; [left; exact Hn | intros _; exact Hn].
Qed.

Lemma run_listener st evs :
  listener_known st ->
  listener_known (run p st evs) /\
  (quiet p evs = false -> keyboard_listener (host (run p st evs)) = None).
Proof.
  revert st. induction evs as [|e evs IH]; intros st Hk; [split; [exact Hk | discriminate]|].
  rewrite run_cons. destruct (deliver_listener st e Hk) as [Hk' Hend].
  destruct (IH _ Hk') as [Hk'' Hq]. split; [exact Hk''|].
  cbn [quiet forallb]. intros H. apply andb_false_iff in H as [H|H].
  - apply negb_false_iff in H. specialize (Hend H). clear - Hend.
    revert Hend. generalize (deliver p st e). induction evs as [|e' evs IH]; intros s Hs;
      [exact Hs|]. rewrite run_cons. apply IH, deliver_keyboard_listener, Hs.
  - apply Hq, H.
Qed.

End Ending.

(** When a response ends the trial ([response_ends_trial] true) and it is
    the first callback apart from the two cosmetic timers, the host
    receives one result: the key of that response, the rounded time from
    the clock read by [trial] to the clock read by the callback, and the
    stimulus parameter. The keyboard listener is then off. *)
Theorem response_ends_trial_with_its_key (pg : page) (now0 : Q) (p : trial_params)
    (st0 : trial_state) (pre : list event) (e : event) (k : string) (now : Q) :
  trial pg now0 p = Returned st0 ->
  response_ends_trial p = true ->
  cosmetic pre = true ->
  response_key e = Some k ->
  event_clock e = Some now ->
  finished (host (run p st0 (pre ++ [e]))) =
    [ {| data_rt := Some (Math_round (now - now0)); data_stimulus := stimulus p;
         data_response := Some k |} ] /\
  keyboard_listener (host (run p st0 (pre ++ [e]))) = None.
Proof.
  intros Ht Hends Hpre He Hclock.
  destruct (trial_host p pg now0 st0 Ht) as (_ & _ & _ & _ & Hfin).
  destruct (trial_positions p pg now0 st0 Ht) as (_ & _ & Hstart & Hresp).
  destruct (cosmetic_stay p st0 pre Hpre) as (Hr & Hf & _ & _).
  rewrite run_app.
  change (run p (run p st0 pre) [e]) with (deliver p (run p st0 pre) e).
  split.
  - rewrite deliver_finished, Hf, Hfin.
    assert (Hreach : reaches_end_trial p e = true).
    { destruct e; cbn in He |- *; [exact Hends | exact Hends | discriminate]. }
    rewrite Hreach. cbn [app]. f_equal. unfold trial_data_of. f_equal.
    + destruct (run_positions p st0 pre) as (_ & _ & Hs).
      destruct e as [info now' | choice now' | cb]; cbn in Hclock; try discriminate;
        injection Hclock as ->; cbn [deliver]; rewrite after_response_rt, Hs, Hstart;
        reflexivity.
    + rewrite deliver_key, Hr, Hresp. exact He.
  - assert (Hq : quiet p [e] = false).
    { cbn. destruct e; cbn in He |- *; rewrite ?Hends; try reflexivity; discriminate. }
    pose proof (run_listener p st0 pre (trial_listener_known p pg now0 st0 Ht)) as [Hk _].
    destruct (deliver_listener p (run p st0 pre) e Hk) as [_ Hn].
    apply Hn. destruct e; cbn in He |- *; [exact Hends | exact Hends | discriminate].
Qed.

Lemma response_ends_trial_with_its_key_witness :
  trial Examples.host_page 0 Examples.keys_or_timeout
    = Returned (Examples.started Examples.keys_or_timeout) /\
  finished (host (run Examples.keys_or_timeout (Examples.started Examples.keys_or_timeout)
                    ([TimeoutFires HideStimulus] ++
                     [KeyboardCallback Examples.key_a (2501 # 10)]))) =
    [ {| data_rt := Some (Math_round ((2501 # 10) - 0));
         data_stimulus := stimulus Examples.keys_or_timeout;
         data_response := Some "a" |} ] /\
  keyboard_listener
    (host (run Examples.keys_or_timeout (Examples.started Examples.keys_or_timeout)
             ([TimeoutFires HideStimulus] ++
              [KeyboardCallback Examples.key_a (2501 # 10)]))) = None.
Proof.
  split; [reflexivity|].
  apply (response_ends_trial_with_its_key Examples.host_page 0 Examples.keys_or_timeout
           (Examples.started Examples.keys_or_timeout) [TimeoutFires HideStimulus]
           (KeyboardCallback Examples.key_a (2501 # 10)) "a" (2501 # 10));
    reflexivity.
Defined.

(** ** The keyboard listener after the end *)

(** Once a callback has reached [end_trial], the keyboard listener is
    cancelled and no callback arms it again: in the rest of the run no
    key press is delivered to [after_response]. *)
Theorem no_key_after_end (pg : page) (now0 : Q) (p : trial_params) (st0 : trial_state)
    (evs : list event) (info : response_info) (now : Q) :
  trial pg now0 p = Returned st0 ->
  quiet p evs = false ->
  keyboard_listener (host (run p st0 evs)) = None /\
  registered (run p st0 evs) (KeyboardCallback info now) = false.
Proof.
  intros Ht Hq.
  destruct (run_listener p st0 evs (trial_listener_known p pg now0 st0 Ht)) as [_ Hn].
  specialize (Hn Hq). split; [exact Hn|]. cbn. rewrite Hn. reflexivity.
Qed.

Lemma no_key_after_end_witness :
  trial Examples.host_page 0 Examples.keys_or_timeout
    = Returned (Examples.started Examples.keys_or_timeout) /\
  quiet Examples.keys_or_timeout
    [KeyboardCallback Examples.key_a (100 # 1); TimeoutFires HideStimulus] = false /\
  registered (Examples.started Examples.keys_or_timeout)
    (KeyboardCallback Examples.key_a (300 # 1)) = true /\
  registered
    (run Examples.keys_or_timeout (Examples.started Examples.keys_or_timeout)
       [KeyboardCallback Examples.key_a (100 # 1); TimeoutFires HideStimulus])
    (KeyboardCallback Examples.key_a (300 # 1)) = false.
Proof.
  split; [reflexivity|]. split; [reflexivity|]. split; [reflexivity|].
  apply (no_key_after_end Examples.host_page 0 Examples.keys_or_timeout
           (Examples.started Examples.keys_or_timeout)
           [KeyboardCallback Examples.key_a (100 # 1); TimeoutFires HideStimulus]
           Examples.key_a (300 # 1)); reflexivity.
Defined.

(** ** Timers *)


Lemma count_armed p cb :
  count_timer cb (armed_timeouts p) = if timer_set p cb then 1 else 0.
Proof.
  unfold armed_timeouts, timer_set.
  destruct cb, (0 <? enable_button_after p)%Z, (stimulus_duration p), (trial_duration p);
    reflexivity.
Qed.

(** In a run of registered callbacks each of the three timers fires at
    most once. *)
Theorem each_timer_fires_once (pg : page) (now0 : Q) (p : trial_params)
    (st0 : trial_state) (evs : list event) (cb : timer_callback) :
  trial pg now0 p = Returned st0 ->
  registered_trace p st0 evs = true ->
  length (List.filter (fires cb) evs) <= 1.
Proof.
  intros Ht Hreg. destruct (trial_host p pg now0 st0 Ht) as (Hto & _).
  assert (Hb : forall st, registered_trace p st evs = true ->
            length (List.filter (fires cb) evs) <= count_timer cb (timeouts (host st))).
  { clear. induction evs as [|e evs IH]; intros st; cbn [registered_trace List.filter];
      [cbn; lia|].
    intros H. apply andb_prop in H as [Hr H]. specialize (IH _ H).
    rewrite deliver_timeouts in IH.
    destruct e as [info now | choice now | cb']; cbn [fires]; [exact IH | exact IH |].
    rewrite remove_timer_count in IH. cbn [registered] in Hr.
    destruct (timer_eqb cb cb') eqn:E; cbn [length]; [|lia].
    assert (cb' = cb) as -> by (destruct cb, cb'; try discriminate; reflexivity).
    apply pending_count in Hr. lia. }
  specialize (Hb st0 Hreg). rewrite Hto, count_armed in Hb.
  destruct (timer_set p cb); lia.
Qed.

Lemma each_timer_fires_once_witness :
  trial Examples.host_page 0 Examples.keys_or_timeout
    = Returned (Examples.started Examples.keys_or_timeout) /\
  registered_trace Examples.keys_or_timeout (Examples.started Examples.keys_or_timeout)
    [TimeoutFires EndTrial; KeyboardCallback Examples.key_a (600 # 1)] = false /\
  registered_trace Examples.keys_or_timeout (Examples.started Examples.keys_or_timeout)
    [KeyboardCallback Examples.key_a (100 # 1); TimeoutFires EndTrial] = true /\
  length (List.filter (fires EndTrial)
            [KeyboardCallback Examples.key_a (100 # 1); TimeoutFires EndTrial]) <= 1.
Proof.
  split; [reflexivity|]. split; [reflexivity|]. split; [reflexivity|].
  apply (each_timer_fires_once Examples.host_page 0 Examples.keys_or_timeout
           (Examples.started Examples.keys_or_timeout)
           [KeyboardCallback Examples.key_a (100 # 1); TimeoutFires EndTrial] EndTrial);
    reflexivity.
Defined.

(** ** What [trial] returns, and when it throws *)

Section Rendering.

Variable p : trial_params.

Lemma group_attrs_unset : group_attrs p = None <-> grid_unset p = true.
Proof.
  unfold group_attrs, grid_unset.
  destruct (String.eqb (button_layout p) "grid").
  - destruct (grid_rows p), (grid_columns p); cbn; split; intros H; try discriminate;
      reflexivity.
  - destruct (String.eqb (button_layout p) "flex"); cbn; split; discriminate.
Qed.

Lemma group_attrs_div g : group_attrs p = Some g -> tag g = "div" /\ id g = btngroup_id.
Proof.
  unfold group_attrs.
  destruct (String.eqb (button_layout p) "grid").
  - destruct (grid_rows p), (grid_columns p); intros [= <-]; split; reflexivity.
  - destruct (String.eqb (button_layout p) "flex"); intros [= <-]; split; reflexivity.
Qed.

(** The two ways [trial] returns. *)
Lemma trial_returned pg now st :
  trial pg now p = Returned st ->
  (buttons_active p = false /\
   st = arm p now (length (display_children pg)) None
          (appendChild (stimulus_element p) pg) host_init) \/
  (buttons_active p = true /\
   exists g l bs ls,
     group_attrs p = Some g /\ choices p = ChoicesArr l /\
     add_buttons (button_html p) 0 l [] [] = Some (bs, ls) /\
     st = arm p now (length (display_children pg)) (Some (S (length (display_children pg))))
            (appendChild (Elem g bs) (appendChild (stimulus_element p) pg))
            (addEventListener_click ls host_init)).
Proof.
  unfold trial. destruct (buttons_active p).
  - destruct (group_attrs p) as [g|]; [|discriminate].
    destruct (choices p) as [|s|l]; try discriminate.
    destruct (add_buttons _ _ _ _ _) as [[bs ls]|] eqn:Hadd; [|discriminate].
    intros [= <-]. right. split; [reflexivity|]. exists g, l, bs, ls. repeat split. exact Hadd.
  - intros [= <-]. left. split; reflexivity.
Qed.

(** Every throw of [trial]. *)
Lemma trial_thrown pg now e pg' h :
  trial pg now p = Thrown e pg' h ->
  buttons_active p = true /\
  pg' = appendChild (stimulus_element p) pg /\ h = host_init /\
  e = (if grid_unset p then grid_error else TypeError).
Proof.
  unfold trial. destruct (buttons_active p); [|discriminate].
  destruct (group_attrs p) as [g|] eqn:Hg.
  - assert (Hu : grid_unset p = false).
    { destruct (grid_unset p) eqn:E; [|reflexivity].
      apply group_attrs_unset in E. rewrite E in Hg. discriminate. }
    rewrite Hu.
    destruct (choices p) as [|s|l]; try (intros [= <- <- <-]; repeat split).
    destruct (add_buttons _ _ _ _ _) as [[bs ls]|]; [discriminate|].
    intros [= <- <- <-]. repeat split.
  - apply group_attrs_unset in Hg. rewrite Hg. intros [= <- <- <-]. repeat split.
Qed.

Lemma add_buttons_listeners bh n l children ls bs ls' :
  add_buttons bh n l children ls = Some (bs, ls') ->
  List.map snd ls' = List.map snd ls ++ l.
Proof.
  revert n children ls. induction l as [|c l IH]; intros n children ls; cbn [add_buttons].
  - intros [= _ <-]. symmetry. apply app_nil_r.
  - destruct (last (children ++ bh c n)) as [[s|a cs]|]; try discriminate.
    intros H. rewrite (IH _ _ _ H), map_app, <- app_assoc. reflexivity.
Qed.

Lemma add_buttons_text bh n l children ls i c s :
  l !! i = Some c ->
  last (bh c (n + i)) = Some (Text s) ->
  add_buttons bh n l children ls = None.
Proof.
  revert n children ls i. induction l as [|c' l IH]; intros n children ls i; [discriminate|].
  cbn [add_buttons]. destruct i as [|i]; cbn [lookup list_lookup].
  - intros [= ->] Hlast. rewrite Nat.add_0_r in Hlast. rewrite last_app, Hlast. reflexivity.
  - intros Hl Hlast.
    destruct (last (children ++ bh c' n)) as [[s'|a cs]|]; try reflexivity.
    apply (IH (S n) _ _ i Hl). rewrite Nat.add_succ_comm. exact Hlast.
Qed.

Lemma add_buttons_returns bh n l children ls :
  (forall c i, ends_in_element (bh c i) = true) ->
  exists bs ls', add_buttons bh n l children ls = Some (bs, ls').
Proof.
  intros Hbh. revert n children ls.
  induction l as [|c l IH]; intros n children ls; cbn [add_buttons]; [eauto|].
  specialize (Hbh c n). unfold ends_in_element in Hbh.
  rewrite last_app. destruct (last (bh c n)) as [[s|a cs]|]; try discriminate.
  apply IH.
Qed.

Lemma add_buttons_single bh (fa : string -> nat -> attrs) (fc : string -> nat -> list node)
    n l children ls :
  (forall c i, bh c i = [Elem (fa c i) (fc c i)]) ->
  add_buttons bh n l children ls =
    Some (children ++
            imap (fun j c => Elem (set_dataset_choice (toString (n + j)) (fa c (n + j)))
                               (fc c (n + j))) l,
          ls ++ imap (fun j c => (length children + j, c)) l).
Proof.
  intros Hbh. revert n children ls.
  induction l as [|c l IH]; intros n children ls; cbn [add_buttons].
  - cbn. rewrite !app_nil_r. reflexivity.
  - rewrite Hbh, last_snoc, length_app. cbn [length].
    replace (pred (length children + 1)) with (length children + 0) by lia.
    rewrite insert_app_r. cbn [insert list_insert].
    rewrite IH, !imap_cons, <- !app_assoc, length_app. cbn [length app].
    rewrite !Nat.add_0_r.
    assert (H1 : imap (fun j c0 => Elem (set_dataset_choice (toString (S n + j)) (fa c0 (S n + j)))
                                     (fc c0 (S n + j))) l =
                 imap ((fun j c0 => Elem (set_dataset_choice (toString (n + j)) (fa c0 (n + j)))
                                      (fc c0 (n + j))) ∘ S) l).
    { apply imap_ext. intros j x _. cbn. rewrite ?Nat.add_succ_r. reflexivity. }
    assert (H2 : imap (fun j (c0 : string) => (length children + 1 + j, c0)) l =
                 imap ((fun j (c0 : string) => (length children + j, c0)) ∘ S) l).
    { apply imap_ext. intros j x _. cbn. f_equal. lia. }
    rewrite H1, H2. reflexivity.
Qed.

Lemma run_click_listeners st evs :
  click_listeners (host (run p st evs)) = click_listeners (host st).
Proof.
  revert st. induction evs as [|e evs IH]; intros st; [reflexivity|].
  rewrite run_cons, IH. apply deliver_click_listeners.
Qed.

Lemma trial_click_listeners pg now st :
  trial pg now p = Returned st ->
  List.map snd (click_listeners (host st)) = button_choices p.
Proof.
  intros Ht. unfold button_choices.
  destruct (trial_returned pg now st Ht) as [[Hact ->] | (Hact & g & l & bs & ls & _ & Hc & Hadd & ->)];
    rewrite Hact.
  - destruct (arm_host p now (length (display_children pg)) None
                (appendChild (stimulus_element p) pg) host_init) as (_ & _ & _ & -> & _).
    reflexivity.
  - rewrite Hc.
    destruct (arm_host p now (length (display_children pg))
                (Some (S (length (display_children pg))))
                (appendChild (Elem g bs) (appendChild (stimulus_element p) pg))
                (addEventListener_click ls host_init)) as (_ & _ & _ & -> & _).
    cbn. apply (add_buttons_listeners _ _ _ _ _ _ _ Hadd).
Qed.

End Rendering.

(** Whenever [trial] throws, buttons were to be rendered, the stimulus
    element is all that has been added to the display element, and the
    host has been asked for nothing; the error is the configuration error
    exactly when the grid has neither rows nor columns, and a TypeError
    otherwise. *)
Theorem trial_throws_before_arming (pg : page) (now0 : Q) (p : trial_params)
    (e : js_error) (pg' : page) (h : host_state) :
  trial pg now0 p = Thrown e pg' h ->
  buttons_active p = true /\
  display_children pg' = display_children pg ++ [stimulus_element p] /\
  h = host_init /\
  (grid_unset p = true -> e = grid_error) /\
  (grid_unset p = false -> e = TypeError).
Proof.
  intros Ht. destruct (trial_thrown p pg now0 e pg' h Ht) as (Hact & -> & -> & ->).
  repeat split; try assumption; intros ->; reflexivity.
Qed.

Lemma trial_throws_before_arming_witness :
  trial Examples.host_page 0
    (Examples.params (ChoicesStr "f") true (Some 1%Z) None 0 None true)
    = Thrown TypeError (appendChild (stimulus_element
                          (Examples.params (ChoicesStr "f") true (Some 1%Z) None 0 None true))
                          Examples.host_page) host_init /\
  grid_unset (Examples.params (ChoicesStr "f") true (Some 1%Z) None 0 None true) = false /\
  buttons_active (Examples.params (ChoicesStr "f") true (Some 1%Z) None 0 None true) = true.
Proof.
  split; [reflexivity|]. split; [reflexivity|].
  apply (trial_throws_before_arming Examples.host_page 0
           (Examples.params (ChoicesStr "f") true (Some 1%Z) None 0 None true)
           TypeError _ _ eq_refl).
Defined.

(** With buttons to render and a usable layout, [trial] throws a
    TypeError when [choices] is a string (it has no [entries()]), when
    the markup of the first choice is empty, and when the markup of any
    choice ends in a text node: the last child of the group is then not
    an element to tag. *)
Theorem button_markup_without_element_throws (pg : page) (now0 : Q) (p : trial_params) :
  buttons_active p = true ->
  grid_unset p = false ->
  (forall s, choices p = ChoicesStr s ->
     trial pg now0 p = Thrown TypeError (appendChild (stimulus_element p) pg) host_init) /\
  (forall c l, choices p = ChoicesArr (c :: l) ->
     button_html p c 0 = [] ->
     trial pg now0 p = Thrown TypeError (appendChild (stimulus_element p) pg) host_init) /\
  (forall l i c s, choices p = ChoicesArr l ->
     l !! i = Some c ->
     last (button_html p c i) = Some (Text s) ->
     trial pg now0 p = Thrown TypeError (appendChild (stimulus_element p) pg) host_init).
Proof.
  intros Hact Hu.
  assert (Hg : exists g, group_attrs p = Some g).
  { destruct (group_attrs p) as [g|] eqn:E; [eauto|].
    apply group_attrs_unset in E. rewrite E in Hu. discriminate. }
  destruct Hg as [g Hg]. unfold trial. rewrite Hact, Hg.
  split; [|split].
  - intros s ->. reflexivity.
  - intros c l -> Hempty. cbn [add_buttons]. rewrite Hempty. reflexivity.
  - intros l i c s -> Hl Hlast.
    rewrite (add_buttons_text (button_html p) 0 l [] [] i c s Hl Hlast). reflexivity.
Qed.

Lemma button_markup_without_element_throws_witness :
  let p := {| stimulus := [Text "this is html"]; choices := ChoicesArr ["f"; "j"];
              show_button := true; button_html := fun choice _ => [Text choice];
              button_layout := "flex"; grid_rows := Some 1%Z; grid_columns := None;
              enable_button_after := 0; prompt := None; stimulus_duration := None;
              trial_duration := None; response_ends_trial := true |} in
  buttons_active p = true /\ grid_unset p = false /\
  trial Examples.host_page 0 p =
    Thrown TypeError (appendChild (stimulus_element p) Examples.host_page) host_init.
Proof.
  intros p. split; [reflexivity|]. split; [reflexivity|].
  destruct (button_markup_without_element_throws Examples.host_page 0 p eq_refl eq_refl)
    as (_ & _ & Htext).
  apply (Htext ["f"; "j"] 1 "j" "j"); reflexivity.
Defined.

(** [trial] returns when no buttons are to be rendered, and when they are
    and the layout is usable, [choices] is an array and the markup of
    every button ends in an element. *)
Theorem trial_returns (pg : page) (now0 : Q) (p : trial_params) :
  buttons_active p = false \/
  (grid_unset p = false /\
   (exists l, choices p = ChoicesArr l) /\
   (forall c i, ends_in_element (button_html p c i) = true)) ->
  exists st, trial pg now0 p = Returned st.
Proof.
  unfold trial. intros [Hact | (Hu & [l Hl] & Hbh)].
  - rewrite Hact. eauto.
  - destruct (buttons_active p); [|eauto].
    destruct (group_attrs p) as [g|] eqn:E.
    + rewrite Hl.
      destruct (add_buttons_returns (button_html p) 0 l [] [] Hbh) as (bs & ls & ->). eauto.
    + apply group_attrs_unset in E. rewrite E in Hu. discriminate.
Qed.

Lemma trial_returns_witness :
  grid_unset Examples.delayed_buttons = false /\
  ends_in_element (button_html Examples.delayed_buttons "f" 0) = true /\
  exists st, trial Examples.host_page 0 Examples.delayed_buttons = Returned st.
Proof.
  split; [reflexivity|]. split; [reflexivity|].
  apply (trial_returns Examples.host_page 0 Examples.delayed_buttons).
  right. split; [reflexivity|]. split; [exists ["f"; "j"]; reflexivity|].
  intros c i. reflexivity.
Defined.

(** ** Clicks *)

(** The click listeners [trial] sets carry the entries of [choices], one
    each and in order, whatever the markup of the buttons; no callback
    adds or removes one. A click can therefore only ever deliver one of
    the trial's choices, as a string, to [after_response]. *)
Theorem clicks_carry_choices (pg : page) (now0 : Q) (p : trial_params)
    (st0 : trial_state) (evs : list event) :
  trial pg now0 p = Returned st0 ->
  List.map snd (click_listeners (host (run p st0 evs))) = button_choices p /\
  (forall c now,
     registered (run p st0 evs) (ClickCallback c now) = true -> In c (button_choices p)).
Proof.
  intros Ht.
  assert (Hm : List.map snd (click_listeners (host (run p st0 evs))) = button_choices p).
  { rewrite run_click_listeners. apply (trial_click_listeners p pg now0 st0 Ht). }
  split; [exact Hm|].
  intros c now Hreg. cbn [registered] in Hreg. rewrite <- Hm.
  apply existsb_exists in Hreg as ([i c'] & Hin & Hc). cbn in Hc.
  apply String.eqb_eq in Hc. subst c'.
  apply in_map_iff. exists (i, c). split; [reflexivity | exact Hin].
Qed.

Lemma clicks_carry_choices_witness :
  trial Examples.host_page 0 Examples.fixed_duration
    = Returned (Examples.started Examples.fixed_duration) /\
  List.map snd
    (click_listeners
       (host (run Examples.fixed_duration (Examples.started Examples.fixed_duration)
                [ClickCallback "j" (300 # 1)]))) = ["f"; "j"].
Proof.
  split; [reflexivity|].
  apply (clicks_carry_choices Examples.host_page 0 Examples.fixed_duration
           (Examples.started Examples.fixed_duration) [ClickCallback "j" (300 # 1)]).
  reflexivity.
Defined.

(** ** The rendered page *)

Lemma arm_children (p : trial_params) now stim grp pg h :
  display_children (document (arm p now stim grp pg h)) =
  (if (0 <? enable_button_after p)%Z
   then List.map (mark_wrapped_buttons true (display_wrapped pg)) (display_children pg)
   else display_children pg) ++ prompt_markup p.
Proof.
  unfold arm, prompt_markup.
  destruct (0 <? enable_button_after p)%Z, (choices_neq_NO_KEYS (choices p)), (prompt p);
    cbn; rewrite ?app_nil_r; reflexivity.
Qed.

Lemma lookup_second {A} (pre : list A) (x y : A) (rest : list A) :
  (pre ++ x :: y :: rest) !! S (length pre) = Some y.
Proof.
  rewrite lookup_app_r by lia.
  replace (S (length pre) - length pre) with 1 by lia. reflexivity.
Qed.

(** Without a button delay, [trial] leaves what the display element held
    in place and appends the stimulus element, then the button group when
    buttons are rendered, then the markup of the prompt. *)
Theorem rendering_order (pg : page) (now0 : Q) (p : trial_params) (st : trial_state) :
  trial pg now0 p = Returned st ->
  (enable_button_after p <= 0)%Z ->
  exists grp,
    display_children (document st) =
      display_children pg ++ [stimulus_element p] ++ grp ++ prompt_markup p /\
    grp = match group_node st with Some g => [g] | None => [] end /\
    length grp = (if buttons_active p then 1 else 0).
Proof.
  intros Ht Hle.
  assert (Hz : (0 <? enable_button_after p)%Z = false) by (apply Z.ltb_ge; exact Hle).
  destruct (trial_returned p pg now0 st Ht)
    as [[Hact ->] | (Hact & g & l & bs & ls & _ & _ & _ & ->)]; rewrite Hact.
  - exists []. unfold group_node.
    destruct (arm_positions p now0 (length (display_children pg)) None
                (appendChild (stimulus_element p) pg) host_init) as (_ & -> & _).
    rewrite arm_children, Hz. cbn. rewrite <- app_assoc. repeat split.
  - exists [Elem g bs]. unfold group_node.
    destruct (arm_positions p now0 (length (display_children pg))
                (Some (S (length (display_children pg))))
                (appendChild (Elem g bs) (appendChild (stimulus_element p) pg))
                (addEventListener_click ls host_init)) as (_ & -> & _).
    rewrite arm_children, Hz. cbn. rewrite <- !app_assoc. cbn.
    rewrite lookup_second. repeat split.
Qed.

Lemma rendering_order_witness :
  let p := {| stimulus := [Text "this is html"]; choices := ChoicesArr ["f"; "j"];
              show_button := false; button_html := default_button_html;
              button_layout := "grid"; grid_rows := Some 1%Z; grid_columns := None;
              enable_button_after := 0;
              prompt := Some [Elem (set_id "foo" (createElement "div"))
                                [Text "this is a prompt"]];
              stimulus_duration := None; trial_duration := None;
              response_ends_trial := true |} in
  trial Examples.host_page 0 p = Returned (Examples.started p) /\
  (enable_button_after p <= 0)%Z /\
  display_children (document (Examples.started p)) =
    [stimulus_element p;
     Elem (set_id "foo" (createElement "div")) [Text "this is a prompt"]].
Proof.
  intros p. split; [reflexivity|]. split; [discriminate|].
  destruct (rendering_order Examples.host_page 0 p (Examples.started p) eq_refl)
    as (grp & Hc & Hg & _); [discriminate|].
  rewrite Hc, Hg. reflexivity.
Defined.

(** When the markup of every button is a single element and there is no
    button delay, [trial] returns with one button per entry of [choices],
    in order, each the element of its markup tagged with its index in
    [dataset.choice]; the click listener of the button at position [i]
    carries the [i]-th choice. *)
Theorem one_button_per_choice (pg : page) (now0 : Q) (p : trial_params)
    (l : list string) (fa : string -> nat -> attrs) (fc : string -> nat -> list node) :
  show_button p = true ->
  choices p = ChoicesArr l ->
  grid_unset p = false ->
  (enable_button_after p <= 0)%Z ->
  (forall c i, button_html p c i = [Elem (fa c i) (fc c i)]) ->
  exists st g,
    trial pg now0 p = Returned st /\
    group_attrs p = Some g /\
    group_node st =
      Some (Elem g (imap (fun i c => Elem (set_dataset_choice (toString i) (fa c i)) (fc c i)) l)) /\
    click_listeners (host st) = imap (fun i c => (i, c)) l /\
    length (rendered_buttons st) = length l.
Proof.
  intros Hshow Hc Hu Hle Hbh.
  assert (Hz : (0 <? enable_button_after p)%Z = false) by (apply Z.ltb_ge; exact Hle).
  assert (Hact : buttons_active p = true).
  { unfold buttons_active. rewrite Hshow, Hc. reflexivity. }
  destruct (group_attrs p) as [g|] eqn:Hg;
    [|apply group_attrs_unset in Hg; rewrite Hg in Hu; discriminate].
  pose proof (add_buttons_single (button_html p) fa fc 0 l [] [] Hbh) as Hadd.
  cbn [app length Nat.add] in Hadd.
  eexists _, g. split.
  { unfold trial. rewrite Hact, Hg, Hc, Hadd. reflexivity. }
  split; [reflexivity|].
  assert (Hnode : group_node
            (arm p now0 (length (display_children pg))
               (Some (S (length (display_children pg))))
               (appendChild
                  (Elem g (imap (fun i c => Elem (set_dataset_choice (toString i) (fa c i))
                                             (fc c i)) l))
                  (appendChild (stimulus_element p) pg))
               (addEventListener_click (imap (fun i c => (i, c)) l) host_init)) =
          Some (Elem g (imap (fun i c => Elem (set_dataset_choice (toString i) (fa c i))
                                           (fc c i)) l))).
  { unfold group_node.
    match goal with |- context [arm p now0 ?s ?gr ?pg1 ?h1] =>
      destruct (arm_positions p now0 s gr pg1 h1) as (_ & -> & _) end.
    rewrite arm_children, Hz. cbn. rewrite <- !app_assoc. cbn. apply lookup_second. }
  split; [exact Hnode|]. split.
  - match goal with |- context [arm p now0 ?s ?gr ?pg1 ?h1] =>
      destruct (arm_host p now0 s gr pg1 h1) as (_ & _ & _ & -> & _) end.
    reflexivity.
  - unfold rendered_buttons. rewrite Hnode. cbn [node_children].
    assert (Hlen : forall (f : nat -> string -> node),
              (forall i c, is_element (f i c) = true) ->
              length (List.filter is_element (imap f l)) = length l).
    { clear. induction l as [|c l IH]; intros f Hf; [reflexivity|].
      rewrite imap_cons. cbn [List.filter]. rewrite Hf. cbn [length]. f_equal.
      apply IH. intros i c'. apply Hf. }
    apply Hlen. reflexivity.
Qed.

Lemma one_button_per_choice_witness :
  show_button Examples.fixed_duration = true /\
  choices Examples.fixed_duration = ChoicesArr ["f"; "j"] /\
  grid_unset Examples.fixed_duration = false /\
  (enable_button_after Examples.fixed_duration <= 0)%Z /\
  exists st g,
    trial Examples.host_page 0 Examples.fixed_duration = Returned st /\
    group_attrs Examples.fixed_duration = Some g /\
    group_node st =
      Some (Elem g
              (imap (fun i c =>
                       Elem (set_dataset_choice (toString i)
                               (set_classList ["jspsych-btn"] (createElement "button")))
                         [Text c]) ["f"; "j"])) /\
    click_listeners (host st) = imap (fun i c => (i, c)) ["f"; "j"] /\
    length (rendered_buttons st) = length ["f"; "j"].
Proof.
  split; [reflexivity|]. split; [reflexivity|]. split; [reflexivity|]. split; [discriminate|].
  apply (one_button_per_choice Examples.host_page 0 Examples.fixed_duration ["f"; "j"]
           (fun _ _ => set_classList ["jspsych-btn"] (createElement "button"))
           (fun c _ => [Text c])); try reflexivity; discriminate.
Defined.

(** ** The grid *)

Lemma ceil_div_pos (n : nat) (d : Z) :
  (0 < d)%Z ->
  exists c, ceil_div n (Some d) = Num c /\
            (Z.of_nat n <= c * d)%Z /\ (c * d < Z.of_nat n + d)%Z.
Proof.
  intros Hd. destruct d as [|d|d]; try lia.
  exists (- ((- Z.of_nat n) / Z.pos d))%Z. split; [reflexivity|].
  pose proof (Z.mul_div_le (- Z.of_nat n) (Z.pos d) Hd).
  pose proof (Z.mul_succ_div_gt (- Z.of_nat n) (Z.pos d) Hd).
  lia.
Qed.

Lemma trial_group_attrs (p : trial_params) pg now st :
  trial pg now p = Returned st ->
  buttons_active p = true ->
  exists g bs, group_attrs p = Some g /\ group_node st = Some (Elem g bs).
Proof.
  intros Ht Hact.
  destruct (trial_returned p pg now st Ht)
    as [[Hact' _] | (_ & g & l & bs & ls & Hg & _ & _ & ->)]; [congruence|].
  destruct (group_attrs_div p g Hg) as [Htag _].
  unfold group_node.
  match goal with |- context [arm p now ?s ?gr ?pg1 ?h1] =>
    destruct (arm_positions p now s gr pg1 h1) as (_ & -> & _) end.
  rewrite arm_children. cbn [display_children appendChild set_children].
  rewrite <- !app_assoc. cbn [app].
  destruct (0 <? enable_button_after p)%Z.
  - rewrite lookup_app_l by (rewrite length_map, length_app; cbn; lia).
    rewrite lookup_map, lookup_second. cbn [option_map mark_wrapped_buttons].
    rewrite Htag, andb_false_r. eauto.
  - rewrite <- !app_assoc. cbn [app]. rewrite lookup_second. eauto.
Qed.

(** In the grid layout with one of rows and columns given and positive,
    the other is computed so that the grid holds every button and has no
    spare line: with [r] rows the group gets [c] columns where
    [c * r] is at least the number of choices and less than that number
    plus [r], and likewise for rows computed from columns. When both are
    given they are used as they are. *)
Theorem grid_holds_every_button (pg : page) (now0 : Q) (p : trial_params)
    (st : trial_state) (l : list string) :
  trial pg now0 p = Returned st ->
  buttons_active p = true ->
  button_layout p = "grid" ->
  choices p = ChoicesArr l ->
  exists g bs,
    group_node st = Some (Elem g bs) /\
    (forall r, grid_rows p = Some r -> grid_columns p = None -> (0 < r)%Z ->
       gridTemplateRows g = Some (Num r) /\
       exists c, gridTemplateColumns g = Some (Num c) /\
                 (Z.of_nat (length l) <= c * r < Z.of_nat (length l) + r)%Z) /\
    (forall c, grid_columns p = Some c -> grid_rows p = None -> (0 < c)%Z ->
       gridTemplateColumns g = Some (Num c) /\
       exists r, gridTemplateRows g = Some (Num r) /\
                 (Z.of_nat (length l) <= r * c < Z.of_nat (length l) + c)%Z) /\
    (forall r c, grid_rows p = Some r -> grid_columns p = Some c ->
       gridTemplateRows g = Some (Num r) /\ gridTemplateColumns g = Some (Num c)).
Proof.
  intros Ht Hact Hlay Hc.
  destruct (trial_group_attrs p pg now0 st Ht Hact) as (g & bs & Hg & Hnode).
  exists g, bs. split; [exact Hnode|].
  revert Hg. unfold group_attrs. rewrite Hlay, Hc. cbn [String.eqb Ascii.eqb Bool.eqb choices_length].
  split; [|split].
  - intros r Hr Hcol Hpos. rewrite Hr, Hcol in Hg. injection Hg as <-.
    split; [reflexivity|].
    destruct (ceil_div_pos (length l) r Hpos) as (c & Hcd & Hlo & Hhi).
    exists c. cbn [gridTemplateColumns set_grid]. unfold ceil_div in Hcd. rewrite Hcd.
    split; [reflexivity | lia].
  - intros c Hcol Hr Hpos. rewrite Hr, Hcol in Hg. injection Hg as <-.
    split; [reflexivity|].
    destruct (ceil_div_pos (length l) c Hpos) as (r & Hcd & Hlo & Hhi).
    exists r. cbn [gridTemplateRows set_grid]. unfold ceil_div in Hcd. rewrite Hcd.
    split; [reflexivity | lia].
  - intros r c Hr Hcol. rewrite Hr, Hcol in Hg. injection Hg as <-. split; reflexivity.
Qed.

Lemma grid_holds_every_button_witness :
  let p := Examples.params (ChoicesArr ["a"; "b"; "c"; "d"; "e"]) true (Some 2%Z) None 0 None true in
  trial Examples.host_page 0 p = Returned (Examples.started p) /\
  exists g bs,
    group_node (Examples.started p) = Some (Elem g bs) /\
    gridTemplateRows g = Some (Num 2) /\
    exists c, gridTemplateColumns g = Some (Num c) /\ (5 <= c * 2 < 5 + 2)%Z.
Proof.
  intros p. split; [reflexivity|].
  destruct (grid_holds_every_button Examples.host_page 0 p (Examples.started p)
              ["a"; "b"; "c"; "d"; "e"] eq_refl eq_refl eq_refl eq_refl)
    as (g & bs & Hnode & Hrows & _).
  exists g, bs. split; [exact Hnode|].
  destruct (Hrows 2%Z eq_refl eq_refl eq_refl) as (Hr & c & Hc & Hb).
  split; [exact Hr|]. exists c. split; [exact Hc | exact Hb].
Defined.

(** A zero for the given one of rows and columns is not rejected: the
    other count is the division by zero, [Infinity] with at least one
    choice and [NaN] with none, and [trial] goes on to render the
    buttons. *)
Theorem grid_zero_is_not_rejected (pg : page) (now0 : Q) (p : trial_params)
    (st : trial_state) (l : list string) :
  trial pg now0 p = Returned st ->
  buttons_active p = true ->
  button_layout p = "grid" ->
  choices p = ChoicesArr l ->
  exists g bs,
    group_node st = Some (Elem g bs) /\
    (grid_rows p = Some 0%Z -> grid_columns p = None ->
       gridTemplateColumns g = Some (match l with [] => NaN | _ :: _ => Infinity end)) /\
    (grid_columns p = Some 0%Z -> grid_rows p = None ->
       gridTemplateRows g = Some (match l with [] => NaN | _ :: _ => Infinity end)).
Proof.
  intros Ht Hact Hlay Hc.
  destruct (trial_group_attrs p pg now0 st Ht Hact) as (g & bs & Hg & Hnode).
  exists g, bs. split; [exact Hnode|].
  revert Hg. unfold group_attrs. rewrite Hlay, Hc. cbn [String.eqb Ascii.eqb Bool.eqb choices_length].
  split.
  - intros Hr Hcol. rewrite Hr, Hcol in Hg. injection Hg as <-. destruct l; reflexivity.
  - intros Hcol Hr. rewrite Hr, Hcol in Hg. injection Hg as <-. destruct l; reflexivity.
Qed.

Lemma grid_zero_is_not_rejected_witness :
  let p := Examples.params (ChoicesArr ["f"; "j"]) true (Some 0%Z) None 0 None true in
  trial Examples.host_page 0 p = Returned (Examples.started p) /\
  exists g bs,
    group_node (Examples.started p) = Some (Elem g bs) /\
    gridTemplateColumns g = Some Infinity /\ length bs = 2.
Proof.
  intros p. split; [reflexivity|].
  destruct (grid_zero_is_not_rejected Examples.host_page 0 p (Examples.started p)
              ["f"; "j"] eq_refl eq_refl eq_refl eq_refl)
    as (g & bs & Hnode & Hrows & _).
  exists g, bs. split; [exact Hnode|]. split; [exact (Hrows eq_refl eq_refl)|].
  vm_compute in Hnode. injection Hnode as _ <-. reflexivity.
Defined.

(** ** The parameters' defaults *)

(** With every parameter at its default, [trial] renders the stimulus
    element only: [show_button] is true by default, but the default
    [choices], ["ALL_KEYS"], switches the buttons off. No timer is set,
    the keyboard listener accepts all keys, and the first key press ends
    the trial with that key. *)
Theorem default_parameters_show_no_buttons (pg : page) (now0 : Q) (stim : html) :
  exists st,
    trial pg now0 (default_parameters stim) = Returned st /\
    display_children (document st) =
      display_children pg ++ [stimulus_element (default_parameters stim)] /\
    buttonGroupElement st = None /\
    click_listeners (host st) = [] /\
    timeouts (host st) = [] /\
    keyboard_listener (host st) =
      Some {| valid_responses := ChoicesStr "ALL_KEYS"; persist := false;
              allow_held_key := false |} /\
    (forall info now,
       finished (host (deliver (default_parameters stim) st (KeyboardCallback info now))) =
         [ {| data_rt := Some (Math_round (now - now0)); data_stimulus := stim;
              data_response := Some (info_key info) |} ]).
Proof.
  eexists. split; [reflexivity|]. repeat split.
Qed.

(** ** A repeated response *)

Lemma classList_add_twice c a : classList_add c (classList_add c a) = classList_add c a.
Proof.
  unfold classList_add at 1.
  assert (H : has_class c (classList_add c a) = true).
  { unfold has_class. apply existsb_exists. exists c. split; [apply classList_add_In|].
    apply String.eqb_refl. }
  rewrite H. reflexivity.
Qed.

Lemma disable_child_twice n : disable_child (disable_child n) = disable_child n.
Proof. destruct n; reflexivity. Qed.

Lemma respond_node_twice (mark_stim mark_group : bool) (n : node) :
  let f := fun n =>
    (if mark_group then on_children (List.map disable_child) else fun x => x)
      ((if mark_stim then on_element (classList_add "responded") else fun x => x) n) in
  f (f n) = f n.
Proof.
  destruct n as [s|a cs]; destruct mark_stim, mark_group; cbn;
    rewrite ?classList_add_twice, ?List.map_map; try reflexivity;
    f_equal; apply List.map_ext; intros; apply disable_child_twice.
Qed.

(** What one response does to the page, a second one does not change:
    the class [responded] is added once, the buttons stay disabled.
    Whatever the state, two calls of [after_response] leave the page as
    one does. *)
Theorem second_response_leaves_page (p : trial_params) (st : trial_state)
    (info1 info2 : response_info) (now1 now2 : Q) :
  document (after_response p (after_response p st info1 now1) info2 now2) =
  document (after_response p st info1 now1).
Proof.
  assert (Hdoc : forall s info now,
    document (after_response p s info now) =
    set_children (display_children (document (after_response p s info now))) (document s)).
  { intros s info now. unfold after_response. destruct (response_ends_trial p); reflexivity. }
  assert (Hpos : stimulusElement (after_response p st info1 now1) = stimulusElement st /\
                 buttonGroupElement (after_response p st info1 now1) = buttonGroupElement st).
  { unfold after_response. destruct (response_ends_trial p); split; reflexivity. }
  rewrite (Hdoc (after_response p st info1 now1)), (Hdoc st info1 now1).
  unfold set_children. cbn [ancestors display_classList display_children]. f_equal.
  rewrite (after_response_children p (after_response p st info1 now1)).
  destruct Hpos as [-> ->]. rewrite after_response_children. cbn zeta.
  set (R := on_element (classList_add "responded")).
  set (D := on_children (List.map disable_child)).
  set (s := stimulusElement st). set (l := display_children (document st)).
  apply list_eq. intros j.
  assert (Hone : forall (f : node -> node) (i : nat) (k : list node),
            alter f i k !! j = (if decide (i = j) then f else fun x => x) <$> k !! j).
  { intros f i k. destruct (decide (i = j)) as [->|Hne].
    - apply list_lookup_alter_eq.
    - rewrite list_lookup_alter_ne by exact Hne. destruct (k !! j); reflexivity. }
  destruct (buttonGroupElement st) as [g|]; [destruct (show_button p)|];
    rewrite !Hone; destruct (l !! j) as [n|]; cbn [fmap option_fmap option_map];
    try reflexivity; f_equal.
  - destruct (decide (g = j)), (decide (s = j)).
    + apply (respond_node_twice true true n).
    + apply (respond_node_twice false true n).
    + apply (respond_node_twice true false n).
    + reflexivity.
  - destruct (decide (s = j)); [apply (respond_node_twice true false n) | reflexivity].
  - destruct (decide (s = j)); [apply (respond_node_twice true false n) | reflexivity].
Qed.

(** ** The stimulus timer *)

Lemma hide_first_none i n : carries_id i n = false -> hide_first i n = None.
Proof.
  revert n. fix IH 1. intros [s|a cs]; [reflexivity|].
  cbn [carries_id]. intros H. apply orb_false_elim in H as [Ha Hcs].
  rewrite hide_first_Elem, Ha.
  assert (Hin : hide_first_in i cs = None).
  { induction cs as [|c cs IHcs]; [reflexivity|].
    cbn [existsb] in Hcs. apply orb_false_elim in Hcs as [Hc Hcs].
    cbn [hide_first_in]. rewrite (IH c Hc), (IHcs Hcs). reflexivity. }
  rewrite Hin. reflexivity.
Qed.

Lemma hide_first_in_at i pre a cs rest :
  existsb (carries_id i) pre = false ->
  id a = i ->
  hide_first_in i (pre ++ Elem a cs :: rest) =
    Some (pre ++ Elem (set_visibility "hidden" a) cs :: rest).
Proof.
  intros Hpre Ha. induction pre as [|c pre IH]; cbn [app hide_first_in].
  - rewrite hide_first_Elem, Ha, String.eqb_refl. reflexivity.
  - cbn [existsb] in Hpre. apply orb_false_elim in Hpre as [Hc Hpre].
    rewrite (hide_first_none i c Hc), (IH Hpre). reflexivity.
Qed.

Lemma carries_id_mark i b inside n :
  carries_id i (mark_wrapped_buttons b inside n) = carries_id i n.
Proof.
  revert inside n. fix IH 2. intros inside [s|a cs]; [reflexivity|].
  cbn [mark_wrapped_buttons carries_id].
  assert (Hid : id (if inside && String.eqb (tag a) "button" then set_disabled b a else a) = id a).
  { destruct (inside && String.eqb (tag a) "button"); reflexivity. }
  rewrite Hid. f_equal.
  induction cs as [|c cs IHcs]; [reflexivity|].
  cbn [List.map existsb]. rewrite IH, IHcs. reflexivity.
Qed.

Lemma existsb_carries_id_mark i b inside l :
  existsb (carries_id i) (List.map (mark_wrapped_buttons b inside) l) =
  existsb (carries_id i) l.
Proof.
  induction l as [|c l IH]; [reflexivity|].
  cbn [List.map existsb]. rewrite carries_id_mark, IH. reflexivity.
Qed.

Section StimulusTimer.

Variable p : trial_params.

Lemma trial_stimulus_first pg now st :
  trial pg now p = Returned st ->
  existsb (carries_id stimulus_id) (display_children pg) = false ->
  stimulus_first st.
Proof.
  intros Ht Hpg. destruct (trial_positions p pg now st Ht) as (Hs & Hg & _).
  unfold stimulus_first. rewrite Hs, Hg. split; [|destruct (buttons_active p); [lia | exact I]].
  assert (Hch : exists grp,
    display_children (document st) =
    (if (0 <? enable_button_after p)%Z
     then List.map (mark_wrapped_buttons true (display_wrapped pg))
            (display_children pg ++ stimulus_element p :: grp)
     else display_children pg ++ stimulus_element p :: grp) ++ prompt_markup p).
  { destruct (trial_returned p pg now st Ht)
      as [[_ ->] | (_ & g & l & bs & ls & _ & _ & _ & ->)].
    - exists []. rewrite arm_children. reflexivity.
    - exists [Elem g bs]. rewrite arm_children.
      cbn [display_children appendChild set_children display_wrapped
           display_classList ancestors].
      rewrite <- !app_assoc. reflexivity. }
  destruct Hch as [grp ->].
  destruct (0 <? enable_button_after p)%Z.
  - rewrite List.map_app. cbn [List.map stimulus_element mark_wrapped_buttons].
    eexists _, _, _, _. split; [rewrite <- app_assoc; reflexivity|].
    split; [apply length_map|]. split.
    + match goal with |- id (if ?c then _ else _) = _ => destruct c end; reflexivity.
    + rewrite existsb_carries_id_mark. exact Hpg.
  - eexists _, _, _, _. split; [rewrite <- app_assoc; reflexivity|].
    split; [reflexivity|]. split; [reflexivity | exact Hpg].
Qed.

Lemma after_response_stimulus_first st info now :
  stimulus_first st -> stimulus_first (after_response p st info now).
Proof.
  intros [(pre & a & cs & rest & Hc & Hlen & Hid & Hpre) Hg].
  assert (Hpos : stimulusElement (after_response p st info now) = stimulusElement st /\
                 buttonGroupElement (after_response p st info now) = buttonGroupElement st).
  { unfold after_response. destruct (response_ends_trial p); split; reflexivity. }
  unfold stimulus_first. destruct Hpos as [-> ->]. split; [|exact Hg].
  rewrite after_response_children, Hc, <- Hlen. cbn zeta.
  replace (length pre) with (length pre + 0) by lia.
  rewrite alter_app_r. cbn [alter list_alter on_element].
  assert (Hadd : id (classList_add "responded" a) = stimulus_id).
  { unfold classList_add. destruct (has_class "responded" a); exact Hid. }
  destruct (buttonGroupElement st) as [g|]; [destruct (show_button p)|].
  - rewrite alter_app_r_alt by lia.
    destruct (g - length pre) as [|k] eqn:Hk; [lia|]. cbn [alter list_alter].
    eexists _, _, _, _. split; [reflexivity|]. split; [lia|]. split; assumption.
  - eexists _, _, _, _. split; [reflexivity|]. split; [lia|]. split; assumption.
  - eexists _, _, _, _. split; [reflexivity|]. split; [lia|]. split; assumption.
Qed.

Lemma hide_stimulus_children st :
  stimulus_first st ->
  display_children (document (hide_stimulus st)) =
  alter hidden (stimulusElement st) (display_children (document st)).
Proof.
  intros [(pre & a & cs & rest & Hc & Hlen & Hid & Hpre) _].
  unfold hide_stimulus. rewrite Hc, (hide_first_in_at _ pre a cs rest Hpre Hid), <- Hlen.
  cbn [document set_document display_children set_children].
  replace (length pre) with (length pre + 0) by lia.
  rewrite alter_app_r. reflexivity.
Qed.

Lemma deliver_stimulus_first st e :
  stimulus_first st -> stimulus_first (deliver p st e).
Proof.
  intros Hst. destruct e as [info now | choice now | cb]; cbn [deliver].
  - apply after_response_stimulus_first, Hst.
  - apply after_response_stimulus_first, Hst.
  - assert (Hst' : stimulus_first (set_host (timer_fired cb (host st)) st)) by exact Hst.
    destruct cb.
    + destruct Hst as [(pre & a & cs & rest & Hc & Hlen & Hid & Hpre) Hg].
      split; [|exact Hg].
      cbn [enable_buttons set_host set_document document stimulusElement
           mark_document_buttons set_children display_children].
      rewrite Hc, List.map_app. cbn [List.map mark_wrapped_buttons].
      eexists _, _, _, _. split; [reflexivity|].
      split; [rewrite length_map; exact Hlen|]. split.
      * match goal with |- id (if ?c then _ else _) = _ => destruct c end; exact Hid.
      * rewrite existsb_carries_id_mark. exact Hpre.
    + pose proof (hide_stimulus_children _ Hst') as Hh.
      cbn [document set_host stimulusElement] in Hh.
      destruct Hst as [(pre & a & cs & rest & Hc & Hlen & Hid & Hpre) Hg].
      assert (Hpos : stimulusElement (hide_stimulus (set_host (timer_fired HideStimulus (host st)) st))
                       = stimulusElement st /\
                     buttonGroupElement (hide_stimulus (set_host (timer_fired HideStimulus (host st)) st))
                       = buttonGroupElement st).
      { unfold hide_stimulus. destruct (hide_first_in _ _); split; reflexivity. }
      unfold stimulus_first. destruct Hpos as [-> ->]. split; [|exact Hg].
      rewrite Hh, Hc, <- Hlen.
      replace (length pre) with (length pre + 0) by lia.
      rewrite alter_app_r. cbn [alter list_alter hidden on_element].
      eexists _, _, _, _. split; [reflexivity|]. split; [lia|]. split; assumption.
    + exact Hst.
Qed.

Lemma run_stimulus_first st evs : stimulus_first st -> stimulus_first (run p st evs).
Proof.
  revert st. induction evs as [|e evs IH]; intros st H; [exact H|].
  rewrite run_cons. apply IH, deliver_stimulus_first, H.
Qed.

End StimulusTimer.

(** On a display element that holds no element with the stimulus id
    before the trial, the stimulus timer hides the stimulus element and
    changes nothing else, in whatever state it fires: before or after a
    response, before or after the end of the trial. *)
Theorem stimulus_timer_hides_stimulus (pg : page) (now0 : Q) (p : trial_params)
    (st0 : trial_state) (evs : list event) :
  trial pg now0 p = Returned st0 ->
  existsb (carries_id stimulus_id) (display_children pg) = false ->
  display_children (document (deliver p (run p st0 evs) (TimeoutFires HideStimulus))) =
    alter hidden (stimulusElement st0) (display_children (document (run p st0 evs))) /\
  (exists a cs,
     stimulus_node (run p st0 evs) = Some (Elem a cs) /\
     stimulus_node (deliver p (run p st0 evs) (TimeoutFires HideStimulus)) =
       Some (Elem (set_visibility "hidden" a) cs)) /\
  response (deliver p (run p st0 evs) (TimeoutFires HideStimulus)) = response (run p st0 evs) /\
  finished (host (deliver p (run p st0 evs) (TimeoutFires HideStimulus))) =
    finished (host (run p st0 evs)).
Proof.
  intros Ht Hpg.
  pose proof (run_stimulus_first p st0 evs (trial_stimulus_first p pg now0 st0 Ht Hpg)) as Hst.
  destruct (run_positions p st0 evs) as (Hs & _ & _).
  assert (Hch : display_children (document (deliver p (run p st0 evs) (TimeoutFires HideStimulus))) =
                alter hidden (stimulusElement st0) (display_children (document (run p st0 evs)))).
  { rewrite <- Hs. cbn [deliver].
    apply (hide_stimulus_children (set_host (timer_fired HideStimulus (host (run p st0 evs)))
                                     (run p st0 evs))).
    exact Hst. }
  split; [exact Hch|]. split; [|split].
  - destruct Hst as [(pre & a & cs & rest & Hc & Hlen & Hid & Hpre) _].
    exists a, cs. unfold stimulus_node.
    destruct (deliver_positions p (run p st0 evs) (TimeoutFires HideStimulus)) as [-> _].
    rewrite Hch, Hc, Hs, <- Hs, <- Hlen.
    replace (length pre) with (length pre + 0) by lia.
    rewrite alter_app_r, !lookup_app_r by lia.
    replace (length pre + 0 - length pre) with 0 by lia. split; reflexivity.
  - apply deliver_timer_response.
  - rewrite deliver_finished. apply app_nil_r.
Qed.

Lemma stimulus_timer_hides_stimulus_witness :
  let p := {| stimulus := [Text "this is html"]; choices := ChoicesArr ["f"; "j"];
              show_button := true; button_html := default_button_html;
              button_layout := "grid"; grid_rows := Some 1%Z; grid_columns := None;
              enable_button_after := 0; prompt := None; stimulus_duration := Some 500%Z;
              trial_duration := None; response_ends_trial := false |} in
  trial Examples.host_page 0 p = Returned (Examples.started p) /\
  existsb (carries_id stimulus_id) (display_children Examples.host_page) = false /\
  exists a cs,
    stimulus_node (run p (Examples.started p) [KeyboardCallback Examples.key_j (300 # 1)])
      = Some (Elem a cs) /\
    classList a = ["responded"] /\ visibility a = "" /\
    stimulus_node (deliver p (run p (Examples.started p)
                                [KeyboardCallback Examples.key_j (300 # 1)])
                     (TimeoutFires HideStimulus))
      = Some (Elem (set_visibility "hidden" a) cs).
Proof.
  intros p. split; [reflexivity|]. split; [reflexivity|].
  destruct (stimulus_timer_hides_stimulus Examples.host_page 0 p (Examples.started p)
              [KeyboardCallback Examples.key_j (300 # 1)] eq_refl eq_refl)
    as (_ & (a & cs & Hs & Hs') & _).
  exists a, cs. split; [exact Hs|].
  vm_compute in Hs. injection Hs as <- _.
  split; [reflexivity|]. split; [reflexivity | exact Hs'].
Defined.

(** ** The keyboard listener *)

Lemma has_comma_app s t : has_comma (s ++ t)%string = has_comma s || has_comma t.
Proof.
  induction s as [|c s IH]; [reflexivity|].
  change (String c s ++ t)%string with (String c (s ++ t)%string).
  cbn [has_comma]. rewrite IH. apply orb_assoc.
Qed.

Lemma concat_is_NO_KEYS (l : list string) :
  String.concat "," l = "NO_KEYS" <-> l = ["NO_KEYS"].
Proof.
  split; [|intros ->; reflexivity].
  destruct l as [|x [|y l]].
  - discriminate.
  - cbn [String.concat]. intros ->. reflexivity.
  - intros H.
    assert (Hc : has_comma (String.concat "," (x :: y :: l)) = true).
    { change (String.concat "," (x :: y :: l))
        with (x ++ ("," ++ String.concat "," (y :: l)))%string.
      rewrite !has_comma_app. change (has_comma ",") with true.
      rewrite orb_true_l. apply orb_true_r. }
    rewrite H in Hc. discriminate.
Qed.

(** [trial] arms the keyboard listener unless [choices] is the string
    ["NO_KEYS"] or, the comparison being the loose one, the array with
    that string as its only entry. An armed listener is given the
    trial's [choices] as valid responses and does not persist. *)
Theorem keyboard_listener_armed_unless_NO_KEYS (pg : page) (now0 : Q) (p : trial_params)
    (st : trial_state) :
  trial pg now0 p = Returned st ->
  (keyboard_listener (host st) = None <->
   choices p = ChoicesStr "NO_KEYS" \/ choices p = ChoicesArr ["NO_KEYS"]) /\
  (forall l, keyboard_listener (host st) = Some l ->
     valid_responses l = choices p /\ persist l = false /\ allow_held_key l = false).
Proof.
  intros Ht. destruct (trial_host p pg now0 st Ht) as (_ & _ & -> & _).
  unfold armed_listener, choices_neq_NO_KEYS. split.
  - destruct (choices p) as [|s|l]; cbn.
    + split; [discriminate | intros [H|H]; discriminate].
    + destruct (String.eqb s "NO_KEYS") eqn:E; cbn.
      * apply String.eqb_eq in E. subst s. split; auto.
      * apply String.eqb_neq in E. split; [discriminate|].
        intros [[= H]|H]; [contradiction | discriminate].
    + destruct (String.eqb (String.concat "," l) "NO_KEYS") eqn:E; cbn.
      * apply String.eqb_eq, concat_is_NO_KEYS in E. subst l. split; auto.
      * apply String.eqb_neq in E. split; [discriminate|].
        intros [H|[= H]]; [discriminate|]. exfalso. apply E, concat_is_NO_KEYS, H.
  - intros l. destruct (match choices p with ChoicesNull => _ | _ => _ end);
      [|discriminate].
    intros [= <-]. repeat split.
Qed.

Lemma keyboard_listener_armed_unless_NO_KEYS_witness :
  let p := Examples.params (ChoicesArr ["NO_KEYS"]) true (Some 1%Z) None 0 None true in
  trial Examples.host_page 0 p = Returned (Examples.started p) /\
  keyboard_listener (host (Examples.started p)) = None /\
  List.map snd (click_listeners (host (Examples.started p))) = ["NO_KEYS"].
Proof.
  intros p. split; [reflexivity|]. split; [|reflexivity].
  apply (proj1 (keyboard_listener_armed_unless_NO_KEYS Examples.host_page 0 p
                  (Examples.started p) eq_refl)).
  right. reflexivity.
Defined.

(** ** Simulation modes *)

Section SimulationModes.

Variable simulation_options : Type.
Variable sampleExGaussian : Q -> Q -> Q -> bool -> Q.
Variable getValidKey : choices_t -> option string.
Variable mergeSimulationData : trial_data -> simulation_options -> trial_data.
Variable ensureSimulationDataConsistency : trial_params -> trial_data -> trial_data.
Variable getDisplayElement : page.
Variable performance_now : Q.

(** In visual mode an exception of [trial] leaves [simulate]: the load
    callback is not called and no key press is injected. The data-only
    mode does not run [trial]: it calls the load callback and hands the
    synthesized data to [finishTrial], also for parameters with which
    [trial] would throw. Any other mode does nothing at all. *)
Theorem simulation_modes (p : trial_params) (o : simulation_options) :
  (forall e pg' h,
     trial getDisplayElement performance_now p = Thrown e pg' h ->
     let r := simulate simulation_options sampleExGaussian getValidKey mergeSimulationData
                ensureSimulationDataConsistency getDisplayElement performance_now
                p "visual" o in
     raised r = Some e /\ calls r = [RunTrial getDisplayElement (Thrown e pg' h)]) /\
  (let r := simulate simulation_options sampleExGaussian getValidKey mergeSimulationData
              ensureSimulationDataConsistency getDisplayElement performance_now
              p "data-only" o in
   raised r = None /\
   calls r =
     [LoadCallback;
      FinishTrial (create_simulation_data simulation_options sampleExGaussian getValidKey
                     mergeSimulationData ensureSimulationDataConsistency p o)]) /\
  (forall mode,
     mode <> "data-only" -> mode <> "visual" ->
     let r := simulate simulation_options sampleExGaussian getValidKey mergeSimulationData
                ensureSimulationDataConsistency getDisplayElement performance_now
                p mode o in
     raised r = None /\ calls r = []).
Proof.
  split; [|split].
  - intros e pg' h Ht r. subst r. unfold simulate, simulate_visual.
    cbn [String.eqb Ascii.eqb Bool.eqb]. rewrite Ht. split; reflexivity.
  - split; reflexivity.
  - intros mode H1 H2 r. subst r. unfold simulate.
    apply String.eqb_neq in H1, H2. rewrite H1, H2. split; reflexivity.
Qed.

End SimulationModes.

Lemma simulation_modes_witness :
  trial Examples.host_page 0 Examples.grid_unset_buttons =
    Thrown grid_error
      (appendChild (stimulus_element Examples.grid_unset_buttons) Examples.host_page)
      host_init /\
  raised (simulate unit (fun _ _ _ _ => 523 # 1) (fun _ => Some "f") (fun d _ => d)
            (fun _ d => d) Examples.host_page 0 Examples.grid_unset_buttons "visual" tt)
    = Some grid_error /\
  raised (simulate unit (fun _ _ _ _ => 523 # 1) (fun _ => Some "f") (fun d _ => d)
            (fun _ d => d) Examples.host_page 0 Examples.grid_unset_buttons "data-only" tt)
    = None.
Proof.
  split; [reflexivity|].
  destruct (simulation_modes unit (fun _ _ _ _ => 523 # 1) (fun _ => Some "f")
              (fun d _ => d) (fun _ d => d) Examples.host_page 0
              Examples.grid_unset_buttons tt) as (Hvis & Hdata & _).
  split; [apply (Hvis grid_error _ _ eq_refl) | apply Hdata].
Defined.

(** ** A response before the deadline *)

(** When a response does not end the trial ([response_ends_trial] false),
    a response given before the trial-duration timer fires is what that
    timer reports: with one response callback between cosmetic timers,
    the single result carries its key and its rounded reaction time. *)
Theorem deadline_reports_earlier_response (pg : page) (now0 : Q) (p : trial_params)
    (st0 : trial_state) (pre post : list event) (e : event) (k : string) (now : Q) :
  trial pg now0 p = Returned st0 ->
  response_ends_trial p = false ->
  cosmetic pre = true ->
  response_key e = Some k ->
  event_clock e = Some now ->
  cosmetic post = true ->
  finished (host (run p st0 (pre ++ e :: post ++ [TimeoutFires EndTrial]))) =
    [ {| data_rt := Some (Math_round (now - now0)); data_stimulus := stimulus p;
         data_response := Some k |} ].
Proof.
  intros Ht Hends Hpre He Hclock Hpost.
  destruct (trial_host p pg now0 st0 Ht) as (_ & _ & _ & _ & Hfin).
  destruct (trial_positions p pg now0 st0 Ht) as (_ & _ & Hstart & Hresp).
  destruct (cosmetic_stay p st0 pre Hpre) as (Hr & Hf & _ & _).
  destruct (run_positions p st0 pre) as (_ & _ & Hs).
  rewrite run_app, run_cons, run_app.
  set (st1 := deliver p (run p st0 pre) e).
  destruct (cosmetic_stay p st1 post Hpost) as (Hr1 & Hf1 & _ & _).
  change (run p (run p st1 post) [TimeoutFires EndTrial])
    with (deliver p (run p st1 post) (TimeoutFires EndTrial)).
  rewrite deliver_finished. cbn [reaches_end_trial].
  unfold trial_data_of. rewrite deliver_timer_response, Hr1, Hf1. subst st1.
  rewrite deliver_finished, Hf, Hfin.
  assert (Hreach : reaches_end_trial p e = false).
  { destruct e; cbn in He |- *; [exact Hends | exact Hends | discriminate]. }
  rewrite Hreach. cbn [app]. f_equal. f_equal.
  - destruct e as [info now' | choice now' | cb]; cbn in Hclock; try discriminate;
      injection Hclock as ->; cbn [deliver]; rewrite after_response_rt, Hs, Hstart;
      reflexivity.
  - rewrite deliver_key, Hr, Hresp. exact He.
Qed.

Lemma deadline_reports_earlier_response_witness :
  trial Examples.host_page 0 Examples.fixed_duration
    = Returned (Examples.started Examples.fixed_duration) /\
  response_ends_trial Examples.fixed_duration = false /\
  finished (host (run Examples.fixed_duration (Examples.started Examples.fixed_duration)
                    ([] ++ ClickCallback "j" (8126 # 10) ::
                     [TimeoutFires HideStimulus] ++ [TimeoutFires EndTrial]))) =
    [ {| data_rt := Some (Math_round ((8126 # 10) - 0));
         data_stimulus := stimulus Examples.fixed_duration;
         data_response := Some "j" |} ].
Proof.
  split; [reflexivity|]. split; [reflexivity|].
  apply (deadline_reports_earlier_response Examples.host_page 0 Examples.fixed_duration
           (Examples.started Examples.fixed_duration) [] [TimeoutFires HideStimulus]
           (ClickCallback "j" (8126 # 10)) "j" (8126 # 10)); reflexivity.
Defined.

(** * The runs the host produces *)

Section HostRuns.

Variable p : trial_params.














End HostRuns.

(** ** Completion *)



(** ** Timers in the host's runs *)



(** ** The reaction time *)

(** The reaction time a response records is a whole number of
    milliseconds, and it is not negative when the clock read by
    [after_response] is not behind the one read by [trial]. *)
Theorem rt_is_whole_and_not_negative (pg : page) (now0 : Q) (p : trial_params)
    (st0 : trial_state) (evs : list event) (info : response_info) (now : Q) :
  trial pg now0 p = Returned st0 ->
  exists z : Z,
    rt (response (after_response p (run p st0 evs) info now)) = Some (inject_Z z) /\
    ((now0 <= now)%Q -> (0 <= z)%Z).
Proof.
  intros Ht. rewrite after_response_rt.
  destruct (run_positions p st0 evs) as (_ & _ & ->).
  destruct (trial_positions p pg now0 st0 Ht) as (_ & _ & -> & _).
  exists (Qfloor (now - now0 + (1 # 2))). split; [reflexivity|].
  intros Hle. change 0%Z with (Qfloor 0). apply Qfloor_resp_le. lra.
Qed.

Lemma rt_is_whole_and_not_negative_witness :
  trial Examples.host_page 0 Examples.fixed_duration
    = Returned (Examples.started Examples.fixed_duration) /\
  exists z : Z,
    rt (response (after_response Examples.fixed_duration
                    (run Examples.fixed_duration (Examples.started Examples.fixed_duration) [])
                    Examples.key_j (1401 # 2))) = Some (inject_Z z) /\
    ((0 <= 1401 # 2)%Q -> (0 <= z)%Z).
Proof.
  split; [reflexivity|].
  apply (rt_is_whole_and_not_negative Examples.host_page 0 Examples.fixed_duration
           (Examples.started Examples.fixed_duration) [] Examples.key_j (1401 # 2)).
  reflexivity.
Defined.

(** ** The response a visual simulation injects *)

Section InjectedResponse.

Variable simulation_options : Type.
Variable sampleExGaussian : Q -> Q -> Q -> bool -> Q.
Variable getValidKey : choices_t -> option string.
Variable mergeSimulationData : trial_data -> simulation_options -> trial_data.
Variable ensureSimulationDataConsistency : trial_params -> trial_data -> trial_data.
Variable getDisplayElement : page.
Variable performance_now : Q.

(** When the synthesized data has a response and a reaction time, the
    visual mode injects that key with that reaction time as delay. When
    the key press reaches the keyboard listener as the first response of
    a trial that a response ends, the trial's result has the synthesized
    response; its reaction time is the one [after_response] measures when
    the key arrives, not a copy of the synthesized one. *)
Theorem visual_simulation_reproduces_response (p : trial_params) (o : simulation_options)
    (st0 : trial_state) (delay : Q) (k : string) :
  let data := create_simulation_data simulation_options sampleExGaussian getValidKey
                mergeSimulationData ensureSimulationDataConsistency p o in
  trial getDisplayElement performance_now p = Returned st0 ->
  response_ends_trial p = true ->
  data_rt data = Some delay ->
  data_response data = Some k ->
  In (PressKey (Some k) delay)
     (calls (simulate simulation_options sampleExGaussian getValidKey mergeSimulationData
               ensureSimulationDataConsistency getDisplayElement performance_now
               p "visual" o)) /\
  (forall r now,
     finished (host (run p st0 [KeyboardCallback {| info_key := k; info_rt := r |} now])) =
       [ {| data_rt := Some (Math_round (now - performance_now));
            data_stimulus := stimulus p; data_response := Some k |} ]).
Proof.
  intros data Ht Hends Hrt Hresp. split.
  - unfold simulate, simulate_visual. cbn [String.eqb Ascii.eqb Bool.eqb calls app].
    fold data. rewrite Ht, Hrt, Hresp. cbn. auto.
  - intros r now.
    destruct (trial_host p _ _ st0 Ht) as (_ & _ & _ & _ & Hfin).
    destruct (trial_positions p _ _ st0 Ht) as (_ & _ & Hstart & Hr0).
    change (run p st0 [KeyboardCallback {| info_key := k; info_rt := r |} now])
      with (deliver p st0 (KeyboardCallback {| info_key := k; info_rt := r |} now)).
    rewrite deliver_finished, Hfin. cbn [reaches_end_trial]. rewrite Hends. cbn [app].
    unfold trial_data_of. cbn [deliver].
    rewrite after_response_rt, after_response_key, Hr0, Hstart. reflexivity.
Qed.

End InjectedResponse.

Lemma visual_simulation_reproduces_response_witness :
  trial Examples.host_page 0 Examples.keys_or_timeout
    = Returned (Examples.started Examples.keys_or_timeout) /\
  response_ends_trial Examples.keys_or_timeout = true /\
  In (PressKey (Some "a") (4187 # 10))
     (calls (simulate unit (fun _ _ _ _ => 4187 # 10) (fun _ => Some "a") (fun d _ => d)
               (fun _ d => d) Examples.host_page 0 Examples.keys_or_timeout "visual" tt)) /\
  finished (host (run Examples.keys_or_timeout (Examples.started Examples.keys_or_timeout)
                    [KeyboardCallback {| info_key := "a"; info_rt := None |} (4192 # 10)])) =
    [ {| data_rt := Some (Math_round ((4192 # 10) - 0));
         data_stimulus := stimulus Examples.keys_or_timeout;
         data_response := Some "a" |} ].
Proof.
  split; [reflexivity|]. split; [reflexivity|].
  destruct (visual_simulation_reproduces_response unit (fun _ _ _ _ => 4187 # 10)
              (fun _ => Some "a") (fun d _ => d) (fun _ d => d) Examples.host_page 0
              Examples.keys_or_timeout tt (Examples.started Examples.keys_or_timeout)
              (4187 # 10) "a" eq_refl eq_refl eq_refl eq_refl) as [Hpress Hres].
  split; [exact Hpress | apply Hres].
Defined.
